(** * Movie-Rating-Platform front end: catalog views and theme store

    A shallow embedding of the three React sources of the repository,

    - [frontend/src/pages/MovieList.js], the catalog view with the IMDB
      fallback (module [VariantB]);
    - the second [MovieList] component, with two independent panels
      (module [VariantA]);
    - [ThemeContext] / [ThemeToggle] (module [Theme]);

    followed by the properties of the specification stated over it.

    Conventions.  A React state cell is a field of a record and its setter
    an update of that field; an [async] function is a computation in a
    state-and-exception monad whose [await] asks the service, given as a
    parameter, for the outcome of the request; JSX is rendered into records
    with one field per conditional block.  JavaScript strings are [string]
    (a sequence of code units), integers are [Z], and the two places that
    compute with fractions ([Math.ceil] of a quotient, [Math.random]) use
    exact rationals [Q]. *)

From Stdlib Require Import ZArith QArith Qround String Ascii List Lia Bool.
From stdpp Require Import base gmap strings.
Import ListNotations.

(** ** JavaScript values and operators *)

Module Js.

(** The value of a [throw]: the message of the error. *)
Definition JsError := string.

(** A scalar that is either a number or a string (identifiers, years). *)
Inductive Prim :=
| PNum (n : Z)
| PStr (s : string).

(** Truthiness: [''], [0], [undefined] and [null] are falsy. *)
Definition truthy_string (s : string) : bool := negb (String.eqb s "").

Definition truthy_prim (p : Prim) : bool :=
  match p with
  | PNum n => negb (n =? 0)%Z
  | PStr s => truthy_string s
  end.

(** A property that may be absent is an [option]; absent is falsy. *)
Definition truthy {A} (t : A -> bool) (o : option A) : bool :=
  match o with
  | Some a => t a
  | None => false
  end.

(** [a || b]. *)
Definition or_else {A} (t : A -> bool) (a b : option A) : option A :=
  if truthy t a then a else b.

(** [s.substring(0, n)]: the first [n] code units, all of [s] when it is
    shorter. *)
Definition substring0 (n : nat) (s : string) : string := String.substring 0 n s.

Definition Math_ceil (q : Q) : Z := Qceiling q.
Definition Math_floor (q : Q) : Z := Qfloor q.

(** The settled state of a promise. *)
Inductive Outcome (A : Type) :=
| Resolved (a : A)
| Rejected (err : JsError).
Arguments Resolved {A} a.
Arguments Rejected {A} err.

(** What JSX puts between two tags: text, a number, a number printed by
    [toFixed(1)], or nothing ([undefined], [null], [false]). *)
Inductive Child :=
| Txt (s : string)
| Num (n : Z)
| Fixed1 (q : Q)
| Prm (p : Prim)
| Nothing.

Definition child_of_prim (o : option Prim) : Child :=
  match o with
  | Some p => Prm p
  | None => Nothing
  end.

Definition child_of_string (o : option string) : Child :=
  match o with
  | Some s => Txt s
  | None => Nothing
  end.

Definition child_of_Z (o : option Z) : Child :=
  match o with
  | Some n => Num n
  | None => Nothing
  end.

End Js.

(** ** A state-and-exception monad for [async] functions *)

Module Eff.
Import Js.

Inductive Res (A : Type) :=
| Ok (a : A)
| Thrown (e : JsError).
Arguments Ok {A} a.
Arguments Thrown {A} e.

Definition M (W A : Type) : Type := W -> Res A * W.

Section Ops.
Context {W : Type}.

Definition ret {A} (a : A) : M W A := fun w => (Ok a, w).

Definition bind {A B} (c : M W A) (k : A -> M W B) : M W B :=
  fun w =>
    match c w with
    | (Ok a, w1) => k a w1
    | (Thrown e, w1) => (Thrown e, w1)
    end.

Definition throw {A} (e : JsError) : M W A := fun w => (Thrown e, w).

(** A plain state update (a setter, a log line). *)
Definition modify (f : W -> W) : M W unit := fun w => (Ok tt, f w).

Definition gets {A} (f : W -> A) : M W A := fun w => (Ok (f w), w).

(** [try { body } catch (e) { handler e }]. *)
Definition try_catch {A} (body : M W A) (handler : JsError -> M W A) : M W A :=
  fun w =>
    match body w with
    | (Ok a, w1) => (Ok a, w1)
    | (Thrown e, w1) => handler e w1
    end.

(** [try { body } finally { fin }]: [fin] runs on both exits and the
    result of [body] is kept unless [fin] throws itself. *)
Definition try_finally {A} (body : M W A) (fin : M W unit) : M W A :=
  fun w =>
    match body w with
    | (r, w1) =>
        match fin w1 with
        | (Ok _, w2) => (r, w2)
        | (Thrown e, w2) => (Thrown e, w2)
        end
    end.

Definition try_catch_finally {A} (body : M W A) (handler : JsError -> M W A)
           (fin : M W unit) : M W A :=
  try_finally (try_catch body handler) fin.

(** Reading a property of a value that may be [undefined]. *)
Definition prop {A} (o : option A) : M W A :=
  match o with
  | Some a => ret a
  | None => throw "TypeError: Cannot read properties of undefined"
  end.

(** The state a computation leaves behind. *)
Definition exec {A} (c : M W A) (w : W) : W := snd (c w).

(** Whether it returned or threw. *)
Definition result {A} (c : M W A) (w : W) : Res A := fst (c w).

End Ops.

Declare Scope eff_scope.
Delimit Scope eff_scope with eff.
Notation "x <- c ;; k" := (bind c (fun x => k))
  (at level 100, c at next level, right associativity) : eff_scope.
Notation "c ;; k" := (bind c (fun _ => k))
  (at level 100, right associativity) : eff_scope.

End Eff.

(** ** The movie object

    One record for the JSON object of either source: the local schema
    ([id], [title], [release_year], ...), the REST convention of the
    external API ([imdbID], [Title], [Year], ...) and its legacy convention
    with [#]-prefixed keys ([hash_TITLE] is [movie['#TITLE']]).  A key the
    object does not have is [None]. *)

Module Data.
Import Js.

Record Movie := {
  id : option Prim;
  hash_IMDB_ID : option Prim;
  imdbID : option Prim;
  title : option string;
  hash_TITLE : option string;
  Title : option string;
  release_year : option Prim;
  hash_YEAR : option Prim;
  Year : option Prim;
  genre : option string;
  hash_GENRES : option string;
  Genre : option string;
  director : option string;
  Director : option string;
  hash_ACTORS : option string;
  description : option string;
  Plot : option string;
  average_rating : option Q;
  ratings_count : option Z;
  hash_IMDB_IV : option Prim;
  imdbRating : option Prim
}.

(** An object with no key at all. *)
Definition empty_movie : Movie :=
  {| id := None; hash_IMDB_ID := None; imdbID := None;
     title := None; hash_TITLE := None; Title := None;
     release_year := None; hash_YEAR := None; Year := None;
     genre := None; hash_GENRES := None; Genre := None;
     director := None; Director := None; hash_ACTORS := None;
     description := None; Plot := None;
     average_rating := None; ratings_count := None;
     hash_IMDB_IV := None; imdbRating := None |}.

(** The parameters of [movieService.getMovies]: [search] is set only for
    a truthy query. *)
Record Params := {
  p_page : Z;
  p_search : option string
}.

(** The [params] object built at the start of a DB fetch (lines 19-25 of
    [MovieList.js], 35-41 of the two-panel view). *)
Definition fetch_params (searchQuery : string) (pageNum : Z) : Params :=
  {| p_page := pageNum;
     p_search := if Js.truthy_string searchQuery then Some searchQuery else None |}.

(** [response.data] of the local API. *)
Record DbData := {
  results : list Movie;
  count : Z
}.

Record DbResponse := {
  db_data : option DbData
}.

(** The requests a view sends, in the order it sends them. *)
Inductive Request :=
| GetMovies (params : Params)
| SearchIMDB (query : string)
| SearchMovies (query : option string).
(* [SearchMovies None] is a call with [undefined]: what an index outside
   the array would give to [imdbService.searchMovies]. *)

(** ** The card of one movie *)

(** The block shown for a locally sourced movie: score, count with its
    noun, and the link to the details page. *)
Record LocalRating := {
  rating_score : list Child;
  rating_count : list Child;
  details_to : list Child
}.

Record Card := {
  card_key : option Prim;
  card_class : string;
  source_badge : bool;
  card_h3 : Child;
  movie_year : Child;
  movie_genre : Child;
  movie_director : list (list Child);
  movie_description : string;
  local_rating : option LocalRating;
  imdb_rating : option (list Child)
}.

(** The text of the description paragraph, lines 97-107 of
    [MovieList.js] and 119-129 of the two-panel view (the same text). *)
Definition plot_text (movie : Movie) : string :=
  match Plot movie with
  | Some p =>
      if truthy_string p then
        if (150 <? String.length p)%nat
        then substring0 150 p +:+ "..."
        else p
      else "No description available"
  | None => "No description available"
  end.

Definition description_text (movie : Movie) : string :=
  match description movie with
  | Some d =>
      if truthy_string d then
        if (150 <? String.length d)%nat
        then substring0 150 d +:+ "..."
        else d
      else plot_text movie
  | None => plot_text movie
  end.

(** The rating block of a local card, lines 110-118 (132-140). *)
Definition local_rating_block (movie : Movie) : LocalRating :=
  {| rating_score :=
       [Txt "⭐ ";
        match average_rating movie with
        | Some r => if Qeq_bool r 0 then Txt "N/A" else Fixed1 r
        | None => Txt "N/A"
        end];
     rating_count :=
       [Txt "("; child_of_Z (ratings_count movie); Txt " ";
        Txt (match ratings_count movie with
             | Some 1%Z => "rating"
             | _ => "ratings"
             end);
        Txt ")"];
     details_to := [Txt "/movies/"; child_of_prim (id movie)] |}.

Definition director_lines (movie : Movie) : list (list Child) :=
  (if truthy truthy_string (director movie)
   then [[Txt "Director: "; child_of_string (director movie)]] else []) ++
  (if truthy truthy_string (Director movie)
   then [[Txt "Director: "; child_of_string (Director movie)]] else []).

End Data.

(** ** The page around a component

    The component's state [S] together with what the component does to the
    outside: the lines written by [console.error], the requests sent, the
    calls of [window.scrollTo] and of [e.preventDefault], and the number of
    [Math.random()] draws made so far. *)

Module Browser.
Import Js Eff Data.

Record World (S : Type) := {
  ui : S;
  console : list (list string);
  requests : list Request;
  scrolls : list (Z * Z);
  prevented : nat;
  draws : nat
}.
Arguments ui {S} w.
Arguments console {S} w.
Arguments requests {S} w.
Arguments scrolls {S} w.
Arguments prevented {S} w.
Arguments draws {S} w.

Section Page.
Context {S : Type}.

Definition boot (s : S) : World S :=
  {| ui := s; console := []; requests := []; scrolls := []; prevented := 0; draws := 0 |}.

Definition with_ui (f : S -> S) (w : World S) : World S :=
  {| ui := f (ui w); console := console w; requests := requests w;
     scrolls := scrolls w; prevented := prevented w; draws := draws w |}.

Definition console_error (line : list string) : M (World S) unit :=
  modify (fun w =>
    {| ui := ui w; console := console w ++ [line]; requests := requests w;
       scrolls := scrolls w; prevented := prevented w; draws := draws w |}).

Definition scrollTo (x y : Z) : M (World S) unit :=
  modify (fun w =>
    {| ui := ui w; console := console w; requests := requests w;
       scrolls := scrolls w ++ [(x, y)]; prevented := prevented w; draws := draws w |}).

Definition preventDefault : M (World S) unit :=
  modify (fun w =>
    {| ui := ui w; console := console w; requests := requests w;
       scrolls := scrolls w; prevented := Datatypes.S (prevented w); draws := draws w |}).

(** Sending a request records it. *)
Definition send (req : Request) (w : World S) : World S :=
  {| ui := ui w; console := console w; requests := requests w ++ [req];
     scrolls := scrolls w; prevented := prevented w; draws := draws w |}.

(** Calling a service: the request is recorded and the way the promise
    will settle is fixed; the service sees the requests sent before
    this one, so that it may answer the same request differently at
    different times. *)
Definition ask {A} (req : Request) (service : list Request -> Outcome A)
  : M (World S) (Outcome A) :=
  fun w => (Ok (service (requests w)), send req w).

(** Resuming after the promise has settled: its value, or its error
    thrown. *)
Definition settle {A} (o : Outcome A) : M (World S) A :=
  match o with
  | Resolved a => ret a
  | Rejected e => throw e
  end.

(** [await service(request)]. *)
Definition await {A} (req : Request) (service : list Request -> Outcome A)
  : M (World S) A :=
  bind (ask req service) settle.

(** [Math.random()]: the [n]-th draw of the page is [random n]. *)
Definition Math_random (random : nat -> Q) : M (World S) Q :=
  fun w =>
    (Ok (random (draws w)),
     {| ui := ui w; console := console w; requests := requests w;
        scrolls := scrolls w; prevented := prevented w;
        draws := Datatypes.S (draws w) |}).

End Page.

End Browser.

(** ** Variant B: one panel with the IMDB fallback
    ([frontend/src/pages/MovieList.js]) *)

Module VariantB.
Import Js Eff Data Browser.
Local Open Scope eff_scope.

(** [searchSource]: ['db'], ['imdb'] or [null]. *)
Inductive Source := Db | Imdb.

Definition source_eqb (a : option Source) (b : Source) : bool :=
  match a, b with
  | Some Db, Db => true
  | Some Imdb, Imdb => true
  | _, _ => false
  end.

(** The [useState] cells, lines 7-13. *)
Record State := {
  movies : list Movie;
  loading : bool;
  error : string;
  searchTerm : string;
  page : Z;
  totalPages : Z;
  searchSource : option Source
}.

Definition initial : State :=
  {| movies := []; loading := true; error := ""; searchTerm := "";
     page := 1; totalPages := 1; searchSource := None |}.

Definition World := Browser.World State.

Definition boot : World := Browser.boot initial.

Definition setMovies (v : list Movie) : M World unit :=
  modify (with_ui (fun s =>
    {| movies := v; loading := loading s; error := error s;
       searchTerm := searchTerm s; page := page s; totalPages := totalPages s;
       searchSource := searchSource s |})).

Definition setLoading (v : bool) : M World unit :=
  modify (with_ui (fun s =>
    {| movies := movies s; loading := v; error := error s;
       searchTerm := searchTerm s; page := page s; totalPages := totalPages s;
       searchSource := searchSource s |})).

Definition setError (v : string) : M World unit :=
  modify (with_ui (fun s =>
    {| movies := movies s; loading := loading s; error := v;
       searchTerm := searchTerm s; page := page s; totalPages := totalPages s;
       searchSource := searchSource s |})).

Definition setSearchTerm (v : string) : M World unit :=
  modify (with_ui (fun s =>
    {| movies := movies s; loading := loading s; error := error s;
       searchTerm := v; page := page s; totalPages := totalPages s;
       searchSource := searchSource s |})).

Definition setPage (v : Z) : M World unit :=
  modify (with_ui (fun s =>
    {| movies := movies s; loading := loading s; error := error s;
       searchTerm := searchTerm s; page := v; totalPages := totalPages s;
       searchSource := searchSource s |})).

Definition setTotalPages (v : Z) : M World unit :=
  modify (with_ui (fun s =>
    {| movies := movies s; loading := loading s; error := error s;
       searchTerm := searchTerm s; page := page s; totalPages := v;
       searchSource := searchSource s |})).

Definition setSearchSource (v : option Source) : M World unit :=
  modify (with_ui (fun s =>
    {| movies := movies s; loading := loading s; error := error s;
       searchTerm := searchTerm s; page := page s; totalPages := totalPages s;
       searchSource := v |})).

(** The answer of [movieService.searchIMDB]: [data] and [data.results]
    may each be missing. *)
Record ImdbData := {
  imdb_results : option (list Movie)
}.

Record ImdbResponse := {
  imdb_data : option ImdbData
}.

(** [imdbResponse.data && imdbResponse.data.results &&
    imdbResponse.data.results.length > 0], line 33; when it holds, the
    list. *)
Definition imdb_hit (r : ImdbResponse) : option (list Movie) :=
  match imdb_data r with
  | Some d =>
      match imdb_results d with
      | Some l => if (0 <? length l)%nat then Some l else None
      | None => None
      end
  | None => None
  end.

Section Services.

Variable getMovies : Params -> list Request -> Outcome DbResponse.
Variable searchIMDB : string -> list Request -> Outcome ImdbResponse.

(** [fetchMovies], lines 15-64.  [response.data.results] at lines 30
    and 48 is read once, before the branch: no state changes in
    between, so a missing [data] throws in the same state. *)
Definition fetchMovies (searchQuery : string) (pageNum : Z) : M World unit :=
  try_catch_finally
    (setLoading true ;;
     setSearchSource None ;;
     let params := fetch_params searchQuery pageNum in
     response <- await (GetMovies params) (getMovies params) ;;
     data <- prop (db_data response) ;;
     (if truthy_string searchQuery && (length (results data) =? 0)%nat then
        try_catch
          (imdbResponse <- await (SearchIMDB searchQuery) (searchIMDB searchQuery) ;;
           match imdb_hit imdbResponse with
           | Some l =>
               setMovies l ;;
               setSearchSource (Some Imdb) ;;
               setTotalPages 1
           | None =>
               setMovies [] ;;
               setSearchSource (Some Db)
           end)
          (fun imdbErr =>
             console_error ["IMDB search failed:"; imdbErr] ;;
             setMovies [] ;;
             setSearchSource (Some Db))
      else
        setMovies (results data) ;;
        setSearchSource (Some Db) ;;
        let total := count data in
        let perPage := 10%Z in
        setTotalPages (Math_ceil (inject_Z total / inject_Z perPage))) ;;
     setError "")
    (fun err =>
       setError "Failed to load movies" ;;
       console_error [err])
    (setLoading false).

(** [handleSearch], lines 71-75. *)
Definition handleSearch : M World unit :=
  preventDefault ;;
  setPage 1 ;;
  term <- gets (fun w => searchTerm (ui w)) ;;
  fetchMovies term 1.

(** [handlePageChange], lines 77-80. *)
Definition handlePageChange (newPage : Z) : M World unit :=
  setPage newPage ;;
  scrollTo 0 0.

(** The effect of line 66: on mount and after each change of [page]. *)
Definition page_effect : M World unit :=
  term <- gets (fun w => searchTerm (ui w)) ;;
  pg <- gets (fun w => page (ui w)) ;;
  fetchMovies term pg.

End Services.

(** [renderMovieCard], lines 82-130: whether the card is an IMDB card
    is read from [searchSource]. *)
Definition renderMovieCard (s : State) (movie : Movie) : Card :=
  let isIMDBMovie := source_eqb (searchSource s) Imdb in
  {| card_key := or_else truthy_prim (id movie) (imdbID movie);
     card_class := "movie-card " +:+ (if isIMDBMovie then "imdb-movie" else "");
     source_badge := isIMDBMovie;
     card_h3 := child_of_string (or_else truthy_string (title movie) (Title movie));
     movie_year := child_of_prim (or_else truthy_prim (release_year movie) (Year movie));
     movie_genre := child_of_string (or_else truthy_string (genre movie) (Genre movie));
     movie_director := director_lines movie;
     movie_description := description_text movie;
     local_rating := if negb isIMDBMovie then Some (local_rating_block movie) else None;
     imdb_rating :=
       if isIMDBMovie && truthy truthy_prim (imdbRating movie)
       then Some [Txt "⭐ "; child_of_prim (imdbRating movie); Txt " (IMDB)"]
       else None |}.

Record Pagination := {
  prev_disabled : bool;
  prev_goes_to : Z;
  page_info : list Child;
  next_disabled : bool;
  next_goes_to : Z
}.

(** What the component returns, lines 132-192; a block guarded by
    [cond && ...] is an [option] or a [bool]. *)
Record View := {
  search_input : string;
  search_info : option string;
  loading_message : option string;
  error_message : option string;
  movie_grid : list Card;
  no_movies : option (list Child);
  pagination : option Pagination
}.

Definition render (s : State) : View :=
  {| search_input := searchTerm s;
     search_info :=
       if source_eqb (searchSource s) Imdb
       then Some "✨ Showing results from IMDB. No matches found in our database."
       else None;
     loading_message := if loading s then Some "Loading movies..." else None;
     error_message := if truthy_string (error s) then Some (error s) else None;
     movie_grid := map (renderMovieCard s) (movies s);
     no_movies :=
       if negb (loading s) && (length (movies s) =? 0)%nat
       then Some [Txt "No movies found. ";
                  Txt (if truthy_string (searchTerm s)
                       then "Try a different search term or " else "");
                  Txt "add a new movie"; Txt "."]
       else None;
     pagination :=
       if (1 <? totalPages s)%Z && source_eqb (searchSource s) Db
       then Some {| prev_disabled := (page s =? 1)%Z;
                    prev_goes_to := page s - 1;
                    page_info := [Txt "Page "; Num (page s); Txt " of "; Num (totalPages s)];
                    next_disabled := (page s =? totalPages s)%Z;
                    next_goes_to := page s + 1 |}
       else None |}.

(** *** The controls of the page

    A button whose [disabled] attribute is set does not call its handler;
    a change of [page] re-runs the effect of line 66, a [setPage] with the
    page already shown does not. *)

Section Controls.

Variable getMovies : Params -> list Request -> Outcome DbResponse.
Variable searchIMDB : string -> list Request -> Outcome ImdbResponse.

(** [setPage(newPage)] through [handlePageChange], then the effect. *)
Definition turn_page (newPage : Z) : M World unit :=
  old <- gets (fun w => page (ui w)) ;;
  handlePageChange newPage ;;
  if (old =? newPage)%Z then ret tt else page_effect getMovies searchIMDB.

(** A click on "Previous", lines 172-178. *)
Definition click_previous : M World unit :=
  s <- gets (fun w => ui w) ;;
  match pagination (render s) with
  | Some controls =>
      if prev_disabled controls then ret tt else turn_page (prev_goes_to controls)
  | None => ret tt
  end.

(** A click on "Next", lines 182-188. *)
Definition click_next : M World unit :=
  s <- gets (fun w => ui w) ;;
  match pagination (render s) with
  | Some controls =>
      if next_disabled controls then ret tt else turn_page (next_goes_to controls)
  | None => ret tt
  end.

(** Typing in the search field, line 144. *)
Definition onChange (value : string) : M World unit := setSearchTerm value.

End Controls.

End VariantB.

(** ** Variant A: two independent panels (the second [MovieList]) *)

Module VariantA.
Import Js Eff Data Browser.
Local Open Scope eff_scope.

(** The [useState] cells, lines 7-15. *)
Record State := {
  dbMovies : list Movie;
  imdbMovies : list Movie;
  dbLoading : bool;
  imdbLoading : bool;
  dbError : string;
  imdbError : string;
  searchTerm : string;
  page : Z;
  totalPages : Z
}.

Definition initial : State :=
  {| dbMovies := []; imdbMovies := []; dbLoading := true; imdbLoading := true;
     dbError := ""; imdbError := ""; searchTerm := ""; page := 1; totalPages := 1 |}.

Definition World := Browser.World State.

Definition boot : World := Browser.boot initial.

Definition setDbMovies (v : list Movie) : M World unit :=
  modify (with_ui (fun s =>
    {| dbMovies := v; imdbMovies := imdbMovies s; dbLoading := dbLoading s;
       imdbLoading := imdbLoading s; dbError := dbError s; imdbError := imdbError s;
       searchTerm := searchTerm s; page := page s; totalPages := totalPages s |})).

Definition setImdbMovies (v : list Movie) : M World unit :=
  modify (with_ui (fun s =>
    {| dbMovies := dbMovies s; imdbMovies := v; dbLoading := dbLoading s;
       imdbLoading := imdbLoading s; dbError := dbError s; imdbError := imdbError s;
       searchTerm := searchTerm s; page := page s; totalPages := totalPages s |})).

Definition setDbLoading (v : bool) : M World unit :=
  modify (with_ui (fun s =>
    {| dbMovies := dbMovies s; imdbMovies := imdbMovies s; dbLoading := v;
       imdbLoading := imdbLoading s; dbError := dbError s; imdbError := imdbError s;
       searchTerm := searchTerm s; page := page s; totalPages := totalPages s |})).

Definition setImdbLoading (v : bool) : M World unit :=
  modify (with_ui (fun s =>
    {| dbMovies := dbMovies s; imdbMovies := imdbMovies s; dbLoading := dbLoading s;
       imdbLoading := v; dbError := dbError s; imdbError := imdbError s;
       searchTerm := searchTerm s; page := page s; totalPages := totalPages s |})).

Definition setDbError (v : string) : M World unit :=
  modify (with_ui (fun s =>
    {| dbMovies := dbMovies s; imdbMovies := imdbMovies s; dbLoading := dbLoading s;
       imdbLoading := imdbLoading s; dbError := v; imdbError := imdbError s;
       searchTerm := searchTerm s; page := page s; totalPages := totalPages s |})).

Definition setImdbError (v : string) : M World unit :=
  modify (with_ui (fun s =>
    {| dbMovies := dbMovies s; imdbMovies := imdbMovies s; dbLoading := dbLoading s;
       imdbLoading := imdbLoading s; dbError := dbError s; imdbError := v;
       searchTerm := searchTerm s; page := page s; totalPages := totalPages s |})).

Definition setSearchTerm (v : string) : M World unit :=
  modify (with_ui (fun s =>
    {| dbMovies := dbMovies s; imdbMovies := imdbMovies s; dbLoading := dbLoading s;
       imdbLoading := imdbLoading s; dbError := dbError s; imdbError := imdbError s;
       searchTerm := v; page := page s; totalPages := totalPages s |})).

Definition setPage (v : Z) : M World unit :=
  modify (with_ui (fun s =>
    {| dbMovies := dbMovies s; imdbMovies := imdbMovies s; dbLoading := dbLoading s;
       imdbLoading := imdbLoading s; dbError := dbError s; imdbError := imdbError s;
       searchTerm := searchTerm s; page := v; totalPages := totalPages s |})).

Definition setTotalPages (v : Z) : M World unit :=
  modify (with_ui (fun s =>
    {| dbMovies := dbMovies s; imdbMovies := imdbMovies s; dbLoading := dbLoading s;
       imdbLoading := imdbLoading s; dbError := dbError s; imdbError := imdbError s;
       searchTerm := searchTerm s; page := page s; totalPages := v |})).

(** The answer of [imdbService.searchMovies]: [data] and
    [data.description] may each be missing. *)
Record ImdbData := {
  imdb_description : option (list Movie)
}.

Record ImdbResponse := {
  imdb_data : option ImdbData
}.

(** [response.data && response.data.description], line 69; an array,
    empty or not, is truthy. *)
Definition imdb_list (r : ImdbResponse) : option (list Movie) :=
  match imdb_data r with
  | Some d => imdb_description d
  | None => None
  end.

Definition randomWords : list string :=
  ["action"; "love"; "war"; "adventure"; "comedy"; "drama"; "hero"; "legend";
   "dark"; "the"].

Definition randomLetters : string := "abcdefghijklmnopqrstuvwxyz".

(** [array[i]]: [undefined] outside the array. *)
Definition index_list {A} (l : list A) (i : Z) : option A :=
  if (i <? 0)%Z then None else nth_error l (Z.to_nat i).

(** [string[i]]: the one-character string, [undefined] outside. *)
Definition index_string (s : string) (i : Z) : option string :=
  if (i <? 0)%Z then None
  else match String.get (Z.to_nat i) s with
       | Some c => Some (String c EmptyString)
       | None => None
       end.

(** Which of the two requests of a refresh settles first. *)
Inductive Order := DbFirst | ImdbFirst.

Section Services.

Variable getMovies : Params -> list Request -> Outcome DbResponse.
Variable searchMovies : option string -> list Request -> Outcome ImdbResponse.
Variable random : nat -> Q.

(** [getRandomQuery], lines 18-28. *)
Definition getRandomQuery : M World (option string) :=
  r <- Math_random random ;;
  if negb (Qle_bool r (1 # 2)) then
    r' <- Math_random random ;;
    ret (index_list randomWords
           (Math_floor (r' * inject_Z (Z.of_nat (length randomWords)))))
  else
    r' <- Math_random random ;;
    ret (index_string randomLetters
           (Math_floor (r' * inject_Z (Z.of_nat (String.length randomLetters))))).

(** [fetchFromDB], lines 32-59. *)
Definition fetchFromDB (searchQuery : string) (pageNum : Z) : M World unit :=
  try_catch_finally
    (setDbLoading true ;;
     let params := fetch_params searchQuery pageNum in
     response <- await (GetMovies params) (getMovies params) ;;
     data <- prop (db_data response) ;;
     setDbMovies (results data) ;;
     let total := count data in
     let perPage := 10%Z in
     setTotalPages (Math_ceil (inject_Z total / inject_Z perPage)) ;;
     setDbError "")
    (fun err =>
       setDbError "Failed to load movies from database" ;;
       console_error ["DB fetch error:"; err] ;;
       setDbMovies [])
    (setDbLoading false).

(** [searchQuery || getRandomQuery()], line 66. *)
Definition imdb_query (searchQuery : string) : M World (option string) :=
  if truthy_string searchQuery then ret (Some searchQuery) else getRandomQuery.

(** [fetchFromIMDB], lines 62-83. *)
Definition fetchFromIMDB (searchQuery : string) : M World unit :=
  try_catch_finally
    (setImdbLoading true ;;
     query <- imdb_query searchQuery ;;
     response <- await (SearchMovies query) (searchMovies query) ;;
     match imdb_list response with
     | Some l => setImdbMovies l
     | None => setImdbMovies []
     end ;;
     setImdbError "")
    (fun err =>
       setImdbError "Failed to load movies from IMDB" ;;
       console_error ["IMDB fetch error:"; err] ;;
       setImdbMovies [])
    (setImdbLoading false).

(** *** The two fetches running together

    [Promise.all([fetchFromDB(), fetchFromIMDB()])] calls both
    functions in turn; each runs up to its [await] and hands back a
    pending promise.  The parts after the [await]s then run one after
    the other, in the order in which the two requests settle.  The
    [_start] functions are the parts before the [await] (they return
    how the request will settle), the [_resume] functions the parts
    after it. *)

Definition fetchFromDB_start (searchQuery : string) (pageNum : Z)
  : M World (Outcome DbResponse) :=
  setDbLoading true ;;
  let params := fetch_params searchQuery pageNum in
  ask (GetMovies params) (getMovies params).

Definition fetchFromDB_resume (settled : Outcome DbResponse) : M World unit :=
  try_catch_finally
    (response <- settle settled ;;
     data <- prop (db_data response) ;;
     setDbMovies (results data) ;;
     let total := count data in
     let perPage := 10%Z in
     setTotalPages (Math_ceil (inject_Z total / inject_Z perPage)) ;;
     setDbError "")
    (fun err =>
       setDbError "Failed to load movies from database" ;;
       console_error ["DB fetch error:"; err] ;;
       setDbMovies [])
    (setDbLoading false).

Definition fetchFromIMDB_start (searchQuery : string)
  : M World (Outcome ImdbResponse) :=
  setImdbLoading true ;;
  query <- imdb_query searchQuery ;;
  ask (SearchMovies query) (searchMovies query).

Definition fetchFromIMDB_resume (settled : Outcome ImdbResponse) : M World unit :=
  try_catch_finally
    (response <- settle settled ;;
     match imdb_list response with
     | Some l => setImdbMovies l
     | None => setImdbMovies []
     end ;;
     setImdbError "")
    (fun err =>
       setImdbError "Failed to load movies from IMDB" ;;
       console_error ["IMDB fetch error:"; err] ;;
       setImdbMovies [])
    (setImdbLoading false).

(** [fetchMovies], lines 30-87. *)
Definition fetchMovies (order : Order) (searchQuery : string) (pageNum : Z)
  : M World unit :=
  db <- fetchFromDB_start searchQuery pageNum ;;
  imdb <- fetchFromIMDB_start searchQuery ;;
  match order with
  | DbFirst => fetchFromDB_resume db ;; fetchFromIMDB_resume imdb
  | ImdbFirst => fetchFromIMDB_resume imdb ;; fetchFromDB_resume db
  end.

(** [handleSearch], lines 94-98. *)
Definition handleSearch (order : Order) : M World unit :=
  preventDefault ;;
  setPage 1 ;;
  term <- gets (fun w => searchTerm (ui w)) ;;
  fetchMovies order term 1.

(** [handlePageChange], lines 100-103. *)
Definition handlePageChange (newPage : Z) : M World unit :=
  setPage newPage ;;
  scrollTo 0 0.

(** The effect of line 89: on mount and after each change of [page]. *)
Definition page_effect (order : Order) : M World unit :=
  term <- gets (fun w => searchTerm (ui w)) ;;
  pg <- gets (fun w => page (ui w)) ;;
  fetchMovies order term pg.

End Services.

(** [renderMovieCard], lines 105-152. *)
Definition renderMovieCard (movie : Movie) (isIMDBMovie : bool) : Card :=
  {| card_key :=
       or_else truthy_prim (or_else truthy_prim (id movie) (hash_IMDB_ID movie))
               (imdbID movie);
     card_class := "movie-card " +:+ (if isIMDBMovie then "imdb-movie" else "");
     source_badge := isIMDBMovie;
     card_h3 :=
       child_of_string
         (or_else truthy_string (or_else truthy_string (title movie) (hash_TITLE movie))
                  (Title movie));
     movie_year :=
       child_of_prim
         (or_else truthy_prim (or_else truthy_prim (release_year movie) (hash_YEAR movie))
                  (Year movie));
     movie_genre :=
       child_of_string
         (or_else truthy_string (or_else truthy_string (genre movie) (hash_GENRES movie))
                  (Genre movie));
     movie_director :=
       director_lines movie ++
       (if truthy truthy_string (hash_ACTORS movie)
        then [[Txt "Actors: "; child_of_string (hash_ACTORS movie)]] else []);
     movie_description := description_text movie;
     local_rating := if negb isIMDBMovie then Some (local_rating_block movie) else None;
     imdb_rating :=
       if isIMDBMovie &&
          truthy truthy_prim (or_else truthy_prim (hash_IMDB_IV movie) (imdbRating movie))
       then Some [Txt "⭐ ";
                  child_of_prim (or_else truthy_prim (hash_IMDB_IV movie) (imdbRating movie));
                  Txt " (IMDB)"]
       else None |}.

Record Pagination := {
  prev_disabled : bool;
  prev_goes_to : Z;
  page_info : list Child;
  next_disabled : bool;
  next_goes_to : Z
}.

(** The section "Results from our database", lines 173-210. *)
Record DbPanel := {
  db_loading_message : option string;
  db_error_message : option string;
  db_grid : list Card;
  db_no_movies : option (list Child);
  db_pagination : option Pagination
}.

(** The section "Results from IMDB", lines 213-227: it has no
    pagination block. *)
Record ImdbPanel := {
  imdb_loading_message : option string;
  imdb_error_message : option string;
  imdb_grid : list Card;
  imdb_no_movies : option string
}.

Record View := {
  search_input : string;
  db_panel : DbPanel;
  imdb_panel : ImdbPanel
}.

Definition render_db (s : State) : DbPanel :=
  {| db_loading_message :=
       if dbLoading s then Some "Loading movies from database..." else None;
     db_error_message := if truthy_string (dbError s) then Some (dbError s) else None;
     db_grid := map (fun movie => renderMovieCard movie false) (dbMovies s);
     db_no_movies :=
       if negb (dbLoading s) && (length (dbMovies s) =? 0)%nat
          && negb (truthy_string (dbError s))
       then Some [Txt "No movies found in our database. ";
                  Txt (if truthy_string (searchTerm s)
                       then "Try a different search term or " else "");
                  Txt "add a new movie"; Txt "."]
       else None;
     db_pagination :=
       if (1 <? totalPages s)%Z
       then Some {| prev_disabled := (page s =? 1)%Z;
                    prev_goes_to := page s - 1;
                    page_info := [Txt "Page "; Num (page s); Txt " of "; Num (totalPages s)];
                    next_disabled := (page s =? totalPages s)%Z;
                    next_goes_to := page s + 1 |}
       else None |}.

Definition render_imdb (s : State) : ImdbPanel :=
  {| imdb_loading_message :=
       if imdbLoading s then Some "Loading movies from IMDB..." else None;
     imdb_error_message := if truthy_string (imdbError s) then Some (imdbError s) else None;
     imdb_grid := map (fun movie => renderMovieCard movie true) (imdbMovies s);
     imdb_no_movies :=
       if negb (imdbLoading s) && (length (imdbMovies s) =? 0)%nat
          && negb (truthy_string (imdbError s))
       then Some "No movies found from IMDB."
       else None |}.

Definition render (s : State) : View :=
  {| search_input := searchTerm s;
     db_panel := render_db s;
     imdb_panel := render_imdb s |}.

(** *** The controls of the page

    As in the fallback view: a disabled button does not call its handler,
    and a change of [page] re-runs the effect of line 89. *)

Section Controls.

Variable getMovies : Params -> list Request -> Outcome DbResponse.
Variable searchMovies : option string -> list Request -> Outcome ImdbResponse.
Variable random : nat -> Q.

Definition turn_page (order : Order) (newPage : Z) : M World unit :=
  old <- gets (fun w => page (ui w)) ;;
  handlePageChange newPage ;;
  if (old =? newPage)%Z then ret tt
  else page_effect getMovies searchMovies random order.

(** A click on "Previous", lines 191-197. *)
Definition click_previous (order : Order) : M World unit :=
  s <- gets (fun w => ui w) ;;
  match db_pagination (render_db s) with
  | Some controls =>
      if prev_disabled controls then ret tt else turn_page order (prev_goes_to controls)
  | None => ret tt
  end.

(** A click on "Next", lines 201-207. *)
Definition click_next (order : Order) : M World unit :=
  s <- gets (fun w => ui w) ;;
  match db_pagination (render_db s) with
  | Some controls =>
      if next_disabled controls then ret tt else turn_page order (next_goes_to controls)
  | None => ret tt
  end.

(** Typing in the search field, line 166. *)
Definition onChange (value : string) : M World unit := setSearchTerm value.

End Controls.

End VariantA.

(** ** The theme store and its switcher ([ThemeContext], [ThemeToggle]) *)

Module Theme.
Import Js Eff.

(** What the provider touches outside React: [localStorage], the
    [data-theme] attribute of the document, the answer of the media query
    [(prefers-color-scheme: dark)] and the number of [change] listeners
    registered on it. *)
Record Page := {
  localStorage : gmap string string;
  data_theme : option string;
  prefers_dark : bool;
  listeners : nat
}.

(** [localStorage.getItem]: [null] for a missing key. *)
Definition getItem (key : string) (p : Page) : option string :=
  localStorage p !! key.

Definition setItem (key value : string) (p : Page) : Page :=
  {| localStorage := <[key := value]> (localStorage p);
     data_theme := data_theme p;
     prefers_dark := prefers_dark p;
     listeners := listeners p |}.

(** [applyTheme], lines 40-42. *)
Definition applyTheme (actualTheme : string) (p : Page) : Page :=
  {| localStorage := localStorage p;
     data_theme := Some actualTheme;
     prefers_dark := prefers_dark p;
     listeners := listeners p |}.

Definition addEventListener (p : Page) : Page :=
  {| localStorage := localStorage p; data_theme := data_theme p;
     prefers_dark := prefers_dark p; listeners := S (listeners p) |}.

Definition removeEventListener (p : Page) : Page :=
  {| localStorage := localStorage p; data_theme := data_theme p;
     prefers_dark := prefers_dark p; listeners := pred (listeners p) |}.

(** The initialiser of [useState], lines 15-18:
    [savedTheme || 'dark']. *)
Definition initial_theme (p : Page) : string :=
  let savedTheme := getItem "theme" p in
  match savedTheme with
  | Some saved => if truthy_string saved then saved else "dark"
  | None => "dark"
  end.

(** The body of the effect of lines 21-38, run after the first render and
    after each change of [theme]. *)
Definition theme_effect (theme : string) (p : Page) : Page :=
  if String.eqb theme "system" then
    addEventListener (applyTheme (if prefers_dark p then "dark" else "light") p)
  else
    applyTheme theme p.

(** Its clean-up, line 37; removing a listener that was never added
    does nothing. *)
Definition theme_cleanup (theme : string) (p : Page) : Page :=
  if String.eqb theme "system" then removeEventListener p else p.

(** [handleChange], lines 24-28: the media query changes to [matches]
    while the provider shows [theme]. *)
Definition handleChange (theme : string) (matches : bool) (p : Page) : Page :=
  let p := {| localStorage := localStorage p; data_theme := data_theme p;
              prefers_dark := matches; listeners := listeners p |} in
  if (0 <? listeners p)%nat && String.eqb theme "system"
  then applyTheme (if matches then "dark" else "light") p
  else p.

(** A mounted provider: the [theme] cell and the page. *)
Record Store := {
  theme : string;
  page : Page
}.

(** First render of [ThemeProvider] followed by its effect. *)
Definition mount (p : Page) : Store :=
  let t := initial_theme p in
  {| theme := t; page := theme_effect t p |}.

(** [changeTheme], lines 44-47, followed by the re-run of the effect when
    [theme] did change. *)
Definition changeTheme (newTheme : string) (s : Store) : Store :=
  let p := setItem "theme" newTheme (page s) in
  {| theme := newTheme;
     page := if String.eqb (theme s) newTheme then p
             else theme_effect newTheme (theme_cleanup (theme s) p) |}.

(** Reloading the page: the React state, the document attribute and the
    listeners are gone, [localStorage] stays. *)
Definition reload (s : Store) : Store :=
  mount {| localStorage := localStorage (page s);
           data_theme := None;
           prefers_dark := prefers_dark (page s);
           listeners := 0 |}.

(** [useTheme], lines 5-11: the context, or a throw outside a
    provider. *)
Definition useTheme (context : option Store) : Res Store :=
  match context with
  | Some c => Ok c
  | None => Thrown "useTheme must be used within a ThemeProvider"
  end.

(** [ThemeToggle]: the three options of the dropdown, lines 65-69. *)
Record ThemeOption := {
  value : string;
  label : string;
  icon : string
}.

Definition themes : list ThemeOption :=
  [ {| value := "dark"; label := "Dark"; icon := "🌙" |};
    {| value := "light"; label := "Light"; icon := "☀️" |};
    {| value := "system"; label := "System"; icon := "💻" |} ].

(** [themes.find(t => t.value === theme)], line 71. *)
Definition currentThemeObj (s : Store) : option ThemeOption :=
  find (fun t => String.eqb (value t) (theme s)) themes.

Record Toggle := {
  store : Store;
  isOpen : bool
}.

(** [handleThemeChange], lines 84-87. *)
Definition handleThemeChange (newTheme : string) (t : Toggle) : Toggle :=
  {| store := changeTheme newTheme (store t); isOpen := false |}.

(** A click on the [i]-th option of the open dropdown, line 108. *)
Definition click_option (i : nat) (t : Toggle) : Toggle :=
  match nth_error themes i with
  | Some themeOption => if isOpen t then handleThemeChange (value themeOption) t else t
  | None => t
  end.

(** The button of the dropdown, line 93: [setIsOpen(!isOpen)]. *)
Definition toggle_button (t : Toggle) : Toggle :=
  {| store := store t; isOpen := negb (isOpen t) |}.

(** [handleClickOutside], lines 74-78: a [mousedown] anywhere in the
    document, [inside] telling whether its target is within the widget. *)
Definition handleClickOutside (inside : bool) (t : Toggle) : Toggle :=
  if negb inside then {| store := store t; isOpen := false |} else t.

(** The media query changes to [matches]: the registered listeners run. *)
Definition media_change (matches : bool) (s : Store) : Store :=
  {| theme := theme s; page := handleChange (theme s) matches (page s) |}.

(** What can happen to the widget. *)
Inductive Event :=
| ClickButton
| ClickOption (i : nat)
| MouseDown (inside : bool)
| MediaChange (matches : bool)
| Reload.

Definition step (e : Event) (t : Toggle) : Toggle :=
  match e with
  | ClickButton => toggle_button t
  | ClickOption i => click_option i t
  | MouseDown inside => handleClickOutside inside t
  | MediaChange matches => {| store := media_change matches (store t); isOpen := isOpen t |}
  | Reload => {| store := reload (store t); isOpen := false |}
  end.

(** The widget after a sequence of events, the first of the list
    first. *)
Definition run (events : list Event) (t : Toggle) : Toggle :=
  fold_left (fun t e => step e t) events t.

(** The widget on a freshly loaded page. *)
Definition start (p : Page) : Toggle :=
  {| store := mount p; isOpen := false |}.

End Theme.

(** ** Vocabulary of the statements *)

Module Vocabulary.
Import Js Eff Data Browser.

(** The error with which the part of a DB fetch after its [await]
    throws, if it does: the rejection of the request, or the [TypeError]
    of reading [results] from a missing [data]. *)
Definition db_thrown (o : Outcome DbResponse) : option JsError :=
  match o with
  | Rejected e => Some e
  | Resolved r =>
      match db_data r with
      | Some _ => None
      | None => Some "TypeError: Cannot read properties of undefined"
      end
  end.

(** The description or plot a card resolves: the first truthy one of
    [movie.description] and [movie.Plot]. *)
Definition resolved_description (movie : Movie) : option string :=
  or_else truthy_string (description movie) (Plot movie).

(** [p] is the text of the first [length p] code units of [s]. *)
Definition starts_with (p s : string) : bool := String.prefix p s.

(** The term the external panel asks for when a fetch with
    [searchQuery] starts in [w]: [searchQuery || getRandomQuery()]. *)
Definition imdb_query_of (random : nat -> Q) (searchQuery : string)
           (w : VariantA.World) : option string :=
  match result (VariantA.imdb_query random searchQuery) w with
  | Ok q => q
  | Thrown _ => None
  end.

(** The one-letter strings ["a"] to ["z"]. *)
Definition lowercase_letters : list string :=
  ["a"; "b"; "c"; "d"; "e"; "f"; "g"; "h"; "i"; "j"; "k"; "l"; "m";
   "n"; "o"; "p"; "q"; "r"; "s"; "t"; "u"; "v"; "w"; "x"; "y"; "z"].

(** A local API that always answers with the given page and count. *)
Definition db_answers (l : list Movie) (c : Z)
  : Params -> list Request -> Outcome DbResponse :=
  fun _ _ => Resolved {| db_data := Some {| results := l; count := c |} |}.

(** A local API that is down. *)
Definition db_down : Params -> list Request -> Outcome DbResponse :=
  fun _ _ => Rejected "Network Error".

(** An external API (REST convention, variant B) that always answers
    with the given list, one whose answer has no [data], and one that
    is down. *)
Definition imdb_answers (l : list Movie)
  : string -> list Request -> Outcome VariantB.ImdbResponse :=
  fun _ _ => Resolved {| VariantB.imdb_data :=
                           Some {| VariantB.imdb_results := Some l |} |}.

Definition imdb_shapeless : string -> list Request -> Outcome VariantB.ImdbResponse :=
  fun _ _ => Resolved {| VariantB.imdb_data := None |}.

Definition imdb_down : string -> list Request -> Outcome VariantB.ImdbResponse :=
  fun _ _ => Rejected "Network Error".

(** The same for the legacy convention of variant A. *)
Definition legacy_answers (l : list Movie)
  : option string -> list Request -> Outcome VariantA.ImdbResponse :=
  fun _ _ => Resolved {| VariantA.imdb_data :=
                           Some {| VariantA.imdb_description := Some l |} |}.

Definition legacy_shapeless
  : option string -> list Request -> Outcome VariantA.ImdbResponse :=
  fun _ _ => Resolved {| VariantA.imdb_data := None |}.

Definition legacy_down
  : option string -> list Request -> Outcome VariantA.ImdbResponse :=
  fun _ _ => Rejected "Network Error".

(** A string of [n] letters. *)
Definition letters (n : nat) : string := string_of_list_ascii (repeat "x"%char n).

(** A movie whose only text is its description, and one whose only text
    is its plot. *)
Definition described (d : string) : Movie :=
  {| id := Some (PNum 1); hash_IMDB_ID := None; imdbID := None;
     title := Some "Untitled"; hash_TITLE := None; Title := None;
     release_year := None; hash_YEAR := None; Year := None;
     genre := None; hash_GENRES := None; Genre := None;
     director := None; Director := None; hash_ACTORS := None;
     description := Some d; Plot := None;
     average_rating := None; ratings_count := Some 0%Z;
     hash_IMDB_IV := None; imdbRating := None |}.

(** A page with the given value, if any, stored under the key
    ["theme"]. *)
Definition page_storing (saved : option string) : Theme.Page :=
  {| Theme.localStorage := match saved with
                           | Some v => {[ "theme" := v ]}
                           | None => ∅
                           end;
     Theme.data_theme := None;
     Theme.prefers_dark := false;
     Theme.listeners := 0 |}.

(** A generator whose draw number [k] is [first] and whose other draws
    are [next]. *)
Definition drawing (k : nat) (first next : Q) : nat -> Q :=
  fun n => if Nat.eqb n k then first else next.

(** A generator that always draws [r]. *)
Definition always (r : Q) : nat -> Q := fun _ => r.

(** How the two requests of a refresh of variant A settle, started in
    [w]: the DB request is sent first, the IMDB request second. *)
Definition db_settles (getMovies : Params -> list Request -> Outcome DbResponse)
           (searchQuery : string) (pageNum : Z) (w : VariantA.World)
  : Outcome DbResponse :=
  getMovies (fetch_params searchQuery pageNum) (requests w).

Definition imdb_settles
           (searchMovies : option string -> list Request -> Outcome VariantA.ImdbResponse)
           (random : nat -> Q) (searchQuery : string) (pageNum : Z) (w : VariantA.World)
  : Outcome VariantA.ImdbResponse :=
  searchMovies (imdb_query_of random searchQuery w)
               (requests w ++ [GetMovies (fetch_params searchQuery pageNum)]).

(** The world in which the two parts after the [await]s of a refresh
    run: both loading flags are set, both requests are sent and [n] draws
    have been made. *)
Definition refresh_started (random : nat -> Q) (w : VariantA.World)
           (searchQuery : string) (pageNum : Z) (n : nat) : VariantA.World :=
  {| ui := {| VariantA.dbMovies := VariantA.dbMovies (ui w);
              VariantA.imdbMovies := VariantA.imdbMovies (ui w);
              VariantA.dbLoading := true; VariantA.imdbLoading := true;
              VariantA.dbError := VariantA.dbError (ui w);
              VariantA.imdbError := VariantA.imdbError (ui w);
              VariantA.searchTerm := VariantA.searchTerm (ui w);
              VariantA.page := VariantA.page (ui w);
              VariantA.totalPages := VariantA.totalPages (ui w) |};
     console := console w;
     requests := requests w ++ [GetMovies (fetch_params searchQuery pageNum);
                                SearchMovies (imdb_query_of random searchQuery w)];
     scrolls := scrolls w; prevented := prevented w; draws := n |}.

(** A movie of the local schema and one of the external schema. *)
Definition local_movie : Movie :=
  {| id := Some (PNum 7); hash_IMDB_ID := None; imdbID := None;
     title := Some "Heat"; hash_TITLE := None; Title := None;
     release_year := Some (PNum 1995); hash_YEAR := None; Year := None;
     genre := Some "Crime"; hash_GENRES := None; Genre := None;
     director := Some "Michael Mann"; Director := None; hash_ACTORS := None;
     description := Some "A crew of thieves and the detective after them.";
     Plot := None;
     average_rating := Some (9 # 2); ratings_count := Some 1%Z;
     hash_IMDB_IV := None; imdbRating := None |}.

Definition external_movie : Movie :=
  {| id := None; hash_IMDB_ID := None; imdbID := Some (PStr "tt0113277");
     title := None; hash_TITLE := None; Title := Some "Heat";
     release_year := None; hash_YEAR := None; Year := Some (PStr "1995");
     genre := None; hash_GENRES := None; Genre := Some "Crime";
     director := None; Director := Some "Michael Mann"; hash_ACTORS := None;
     description := None; Plot := Some "A crew of thieves.";
     average_rating := None; ratings_count := None;
     hash_IMDB_IV := None; imdbRating := Some (PStr "8.3") |}.

(** The value of [data-theme] that goes with a preference: the
    preference itself, or for ["system"] what the media query says. *)
Definition effective_theme (theme : string) (prefers_dark : bool) : string :=
  if String.eqb theme "system"
  then (if prefers_dark then "dark" else "light")
  else theme.

(** The movie without its [#]-prefixed keys. *)
Definition without_hash_keys (movie : Movie) : Movie :=
  {| id := id movie; hash_IMDB_ID := None; imdbID := imdbID movie;
     title := title movie; hash_TITLE := None; Title := Title movie;
     release_year := release_year movie; hash_YEAR := None; Year := Year movie;
     genre := genre movie; hash_GENRES := None; Genre := Genre movie;
     director := director movie; Director := Director movie; hash_ACTORS := None;
     description := description movie; Plot := Plot movie;
     average_rating := average_rating movie; ratings_count := ratings_count movie;
     hash_IMDB_IV := None; imdbRating := imdbRating movie |}.

(** A movie of the legacy convention: only [#]-prefixed keys. *)
Definition legacy_movie : Movie :=
  {| id := None; hash_IMDB_ID := Some (PStr "tt0113277"); imdbID := None;
     title := None; hash_TITLE := Some "Heat"; Title := None;
     release_year := None; hash_YEAR := Some (PNum 1995); Year := None;
     genre := None; hash_GENRES := Some "Crime"; Genre := None;
     director := None; Director := None; hash_ACTORS := Some "Al Pacino";
     description := None; Plot := None;
     average_rating := None; ratings_count := None;
     hash_IMDB_IV := Some (PStr "8.3"); imdbRating := None |}.

(** A view of the fallback variant showing page [p] of [n] pages of DB
    results. *)
Definition showing_page (p n : Z) : VariantB.World :=
  Browser.boot
    {| VariantB.movies := [local_movie]; VariantB.loading := false;
       VariantB.error := ""; VariantB.searchTerm := "heat";
       VariantB.page := p; VariantB.totalPages := n;
       VariantB.searchSource := Some VariantB.Db |}.

(** The same for the two-panel variant. *)
Definition showing_page_A (p n : Z) : VariantA.World :=
  Browser.boot
    {| VariantA.dbMovies := [local_movie]; VariantA.imdbMovies := [];
       VariantA.dbLoading := false; VariantA.imdbLoading := false;
       VariantA.dbError := ""; VariantA.imdbError := "";
       VariantA.searchTerm := "heat";
       VariantA.page := p; VariantA.totalPages := n |}.

(** The preferences the dropdown offers. *)
Definition listed_preferences : list string := map Theme.value Theme.themes.

(** The [data-theme] attribute shows the preference of the store, and a
    listener is registered on the media query exactly while the preference
    is ["system"]. *)
Definition attribute_tracks (s : Theme.Store) : Prop :=
  Theme.data_theme (Theme.page s) =
    Some (effective_theme (Theme.theme s) (Theme.prefers_dark (Theme.page s))) /\
  Theme.listeners (Theme.page s) =
    if String.eqb (Theme.theme s) "system" then 1%nat else 0%nat.

(** What a reload would read from [localStorage] is the preference of the
    store. *)
Definition reload_safe (s : Theme.Store) : Prop :=
  Theme.initial_theme (Theme.page s) = Theme.theme s.

(** A page as the browser hands it over, with arbitrary storage and media
    query: no attribute, no listener. *)
Definition fresh_page (storage : gmap string string) (dark : bool) : Theme.Page :=
  {| Theme.localStorage := storage; Theme.data_theme := None;
     Theme.prefers_dark := dark; Theme.listeners := 0 |}.

End Vocabulary.

(** * Properties *)

(** ** Page count *)

Section PageCount.
Import Js.

(** [Math.ceil(total / 10)] on integers. *)
Lemma Math_ceil_div10 (C : Z) :
  Math_ceil (inject_Z C / inject_Z 10) = (- ((- C) / 10))%Z.
Proof.
  unfold Math_ceil, Qceiling, Qfloor, Qdiv, Qmult, Qinv, Qopp, inject_Z.
  simpl. now rewrite Z.mul_1_r.
Qed.

(** It is the least number of pages of ten that hold [C] movies. *)
Lemma Math_ceil_div10_spec (C : Z) :
  let n := Math_ceil (inject_Z C / inject_Z 10) in
  (10 * (n - 1) < C <= 10 * n)%Z.
Proof.
  cbv zeta. rewrite Math_ceil_div10.
  pose proof (Z.div_mod (- C) 10 ltac:(lia)).
  pose proof (Z.mod_pos_bound (- C) 10 ltac:(lia)).
  lia.
Qed.

Lemma Math_ceil_div10_pos (C : Z) :
  (1 <= Math_ceil (inject_Z C / inject_Z 10) <-> 1 <= C)%Z.
Proof. pose proof (Math_ceil_div10_spec C) as H. cbv zeta in H. lia. Qed.

Lemma Math_ceil_div10_zero : Math_ceil (inject_Z 0 / inject_Z 10) = 0%Z.
Proof. reflexivity. Qed.

End PageCount.

(** ** Running a computation *)

Section Running.
Import Js Eff.
Context {W A B : Type}.

Lemma bind_ok (c : M W A) (k : A -> M W B) (w w1 : W) (a : A) :
  c w = (Ok a, w1) -> bind c k w = k a w1.
Proof. intros H. unfold bind. now rewrite H. Qed.

Lemma run_result (c : M W A) (w : W) (a : A) :
  result c w = Ok a -> c w = (Ok a, exec c w).
Proof. unfold result, exec. destruct (c w) as [r w1]. cbn. now intros ->. Qed.

End Running.

(** ** Variant B: what one fetch leaves behind *)

Section VariantB_fetch.
Import Js Eff Data Browser Vocabulary VariantB.

Variable getMovies : Params -> list Request -> Outcome DbResponse.
Variable searchIMDB : string -> list Request -> Outcome ImdbResponse.

Ltac run_B :=
  cbv [exec result fetchMovies handleSearch handlePageChange page_effect
       try_catch_finally try_finally try_catch bind await ask settle ret throw
       modify gets prop setMovies setLoading setError setPage setTotalPages
       setSearchSource setSearchTerm with_ui send console_error scrollTo
       preventDefault db_thrown fst snd];
  cbn [ui requests console scrolls prevented draws].

(** The DB request fails: only [error], [loading] and [searchSource]
    are written. *)
Lemma B_fetch_db_throws w searchQuery pageNum err :
  db_thrown (getMovies (fetch_params searchQuery pageNum) (requests w)) = Some err ->
  exec (fetchMovies getMovies searchIMDB searchQuery pageNum) w =
  {| ui := {| movies := movies (ui w); loading := false;
              error := "Failed to load movies";
              searchTerm := searchTerm (ui w); page := page (ui w);
              totalPages := totalPages (ui w); searchSource := None |};
     console := console w ++ [[err]];
     requests := requests w ++ [GetMovies (fetch_params searchQuery pageNum)];
     scrolls := scrolls w; prevented := prevented w; draws := draws w |}.
Proof.
  run_B.
  destruct (getMovies _ _) as [[[d|]]|e]; cbn; intros [= <-]; reflexivity.
Qed.

(** The DB answers and its list is shown (no query, or some result). *)
Lemma B_fetch_db_shown w searchQuery pageNum d :
  getMovies (fetch_params searchQuery pageNum) (requests w)
    = Resolved {| db_data := Some d |} ->
  truthy_string searchQuery && (length (results d) =? 0)%nat = false ->
  exec (fetchMovies getMovies searchIMDB searchQuery pageNum) w =
  {| ui := {| movies := results d; loading := false; error := "";
              searchTerm := searchTerm (ui w); page := page (ui w);
              totalPages := Math_ceil (inject_Z (count d) / inject_Z 10);
              searchSource := Some Db |};
     console := console w;
     requests := requests w ++ [GetMovies (fetch_params searchQuery pageNum)];
     scrolls := scrolls w; prevented := prevented w; draws := draws w |}.
Proof.
  intros Hdb Hbranch. run_B. rewrite Hdb. cbn. rewrite Hbranch. reflexivity.
Qed.

(** The DB has nothing for the query and IMDB has something. *)
Lemma B_fetch_imdb_hit w searchQuery pageNum d r l :
  getMovies (fetch_params searchQuery pageNum) (requests w)
    = Resolved {| db_data := Some d |} ->
  truthy_string searchQuery && (length (results d) =? 0)%nat = true ->
  searchIMDB searchQuery (requests w ++ [GetMovies (fetch_params searchQuery pageNum)])
    = Resolved r ->
  imdb_hit r = Some l ->
  exec (fetchMovies getMovies searchIMDB searchQuery pageNum) w =
  {| ui := {| movies := l; loading := false; error := "";
              searchTerm := searchTerm (ui w); page := page (ui w);
              totalPages := 1; searchSource := Some Imdb |};
     console := console w;
     requests := requests w ++ [GetMovies (fetch_params searchQuery pageNum)]
                   ++ [SearchIMDB searchQuery];
     scrolls := scrolls w; prevented := prevented w; draws := draws w |}.
Proof.
  intros Hdb Hbranch Himdb Hhit. run_B. rewrite Hdb. cbn. rewrite Hbranch. cbn.
  rewrite Himdb. cbn. rewrite Hhit. cbn. now rewrite <- app_assoc.
Qed.

(** The DB has nothing for the query and neither has IMDB. *)
Lemma B_fetch_imdb_empty w searchQuery pageNum d r :
  getMovies (fetch_params searchQuery pageNum) (requests w)
    = Resolved {| db_data := Some d |} ->
  truthy_string searchQuery && (length (results d) =? 0)%nat = true ->
  searchIMDB searchQuery (requests w ++ [GetMovies (fetch_params searchQuery pageNum)])
    = Resolved r ->
  imdb_hit r = None ->
  exec (fetchMovies getMovies searchIMDB searchQuery pageNum) w =
  {| ui := {| movies := []; loading := false; error := "";
              searchTerm := searchTerm (ui w); page := page (ui w);
              totalPages := totalPages (ui w); searchSource := Some Db |};
     console := console w;
     requests := requests w ++ [GetMovies (fetch_params searchQuery pageNum)]
                   ++ [SearchIMDB searchQuery];
     scrolls := scrolls w; prevented := prevented w; draws := draws w |}.
Proof.
  intros Hdb Hbranch Himdb Hhit. run_B. rewrite Hdb. cbn. rewrite Hbranch. cbn.
  rewrite Himdb. cbn. rewrite Hhit. cbn. now rewrite <- app_assoc.
Qed.

(** The DB has nothing for the query and the IMDB request fails: the
    failure goes to the console, the view is the one of an empty
    answer. *)
Lemma B_fetch_imdb_rejected w searchQuery pageNum d imdbErr :
  getMovies (fetch_params searchQuery pageNum) (requests w)
    = Resolved {| db_data := Some d |} ->
  truthy_string searchQuery && (length (results d) =? 0)%nat = true ->
  searchIMDB searchQuery (requests w ++ [GetMovies (fetch_params searchQuery pageNum)])
    = Rejected imdbErr ->
  exec (fetchMovies getMovies searchIMDB searchQuery pageNum) w =
  {| ui := {| movies := []; loading := false; error := "";
              searchTerm := searchTerm (ui w); page := page (ui w);
              totalPages := totalPages (ui w); searchSource := Some Db |};
     console := console w ++ [["IMDB search failed:"; imdbErr]];
     requests := requests w ++ [GetMovies (fetch_params searchQuery pageNum)]
                   ++ [SearchIMDB searchQuery];
     scrolls := scrolls w; prevented := prevented w; draws := draws w |}.
Proof.
  intros Hdb Hbranch Himdb. run_B. rewrite Hdb. cbn. rewrite Hbranch. cbn.
  rewrite Himdb. cbn. now rewrite <- app_assoc.
Qed.

(** A fetch never throws (both [try] blocks catch), and it writes
    neither [page] nor [searchTerm]. *)
Lemma B_fetch_returns w searchQuery pageNum :
  result (fetchMovies getMovies searchIMDB searchQuery pageNum) w = Ok tt.
Proof.
  run_B.
  destruct (getMovies _ _) as [[[d|]]|e]; cbn; try reflexivity.
  destruct (truthy_string searchQuery && _); cbn; try reflexivity.
  destruct (searchIMDB _ _) as [r|e]; cbn; try reflexivity.
  destruct (imdb_hit r); reflexivity.
Qed.

Lemma B_fetch_frame w searchQuery pageNum :
  let w' := exec (fetchMovies getMovies searchIMDB searchQuery pageNum) w in
  page (ui w') = page (ui w) /\ searchTerm (ui w') = searchTerm (ui w).
Proof.
  run_B.
  destruct (getMovies _ _) as [[[d|]]|e]; cbn; try (split; reflexivity).
  destruct (truthy_string searchQuery && _); cbn; try (split; reflexivity).
  destruct (searchIMDB _ _) as [r|e]; cbn; try (split; reflexivity).
  destruct (imdb_hit r); split; reflexivity.
Qed.

(** The first request of a fetch is the DB request. *)
Lemma B_fetch_first_request w searchQuery pageNum :
  exists rest,
    requests (exec (fetchMovies getMovies searchIMDB searchQuery pageNum) w) =
    requests w ++ GetMovies (fetch_params searchQuery pageNum) :: rest.
Proof.
  run_B.
  destruct (getMovies _ _) as [[[d|]]|e]; cbn; try (now exists []).
  destruct (truthy_string searchQuery && _); cbn; try (now exists []).
  exists [SearchIMDB searchQuery].
  destruct (searchIMDB _ _) as [r|e]; cbn.
  - destruct (imdb_hit r); cbn; now rewrite <- app_assoc.
  - now rewrite <- app_assoc.
Qed.

(** A submitted search is the reset of the page followed by a fetch with
    the text of the search field and page 1. *)
Lemma B_handleSearch_exec w :
  exec (handleSearch getMovies searchIMDB) w =
  exec (fetchMovies getMovies searchIMDB (searchTerm (ui w)) 1)
       (exec (bind preventDefault (fun _ => setPage 1)) w).
Proof. reflexivity. Qed.

End VariantB_fetch.

(** ** Variant A: the two halves of each fetch *)

Section VariantA_fetch.
Import Js Eff Data Browser Vocabulary VariantA.

Variable getMovies : Params -> list Request -> Outcome DbResponse.
Variable searchMovies : option string -> list Request -> Outcome ImdbResponse.
Variable random : nat -> Q.

Ltac run_A :=
  cbv [exec result fetchMovies fetchFromDB fetchFromIMDB fetchFromDB_start
       fetchFromDB_resume fetchFromIMDB_start fetchFromIMDB_resume
       handleSearch handlePageChange page_effect imdb_query_of
       try_catch_finally try_finally try_catch bind await ask settle ret throw
       modify gets prop setDbMovies setImdbMovies setDbLoading setImdbLoading
       setDbError setImdbError setPage setTotalPages setSearchTerm
       with_ui send console_error scrollTo preventDefault db_thrown fst snd];
  cbn [ui requests console scrolls prevented draws].

(** [fetchFromDB] is its part before the [await] followed by its part
    after it. *)
Lemma A_fetchFromDB_split searchQuery pageNum w :
  fetchFromDB getMovies searchQuery pageNum w =
  bind (fetchFromDB_start getMovies searchQuery pageNum) fetchFromDB_resume w.
Proof.
  run_A. destruct (getMovies _ _) as [[[d|]]|e]; reflexivity.
Qed.

(** The query of the external panel reads nothing of the world but the
    number of draws made. *)
Lemma A_imdb_query_draws searchQuery (w w' : World) :
  draws w = draws w' ->
  result (imdb_query random searchQuery) w = result (imdb_query random searchQuery) w'.
Proof.
  intros Hd. unfold imdb_query, getRandomQuery, result, bind, Math_random, ret.
  destruct (truthy_string searchQuery); cbn; [reflexivity|].
  rewrite Hd. destruct (negb _); reflexivity.
Qed.

Lemma imdb_query_of_draws searchQuery (w w' : World) :
  draws w = draws w' ->
  imdb_query_of random searchQuery w = imdb_query_of random searchQuery w'.
Proof.
  intros Hd. unfold imdb_query_of. now rewrite (A_imdb_query_draws searchQuery w w' Hd).
Qed.

(** It never throws. *)
Lemma A_imdb_query_returns searchQuery (w : World) :
  exists q w', imdb_query random searchQuery w = (Ok q, w') /\
               ui w' = ui w /\ requests w' = requests w /\ console w' = console w /\
               scrolls w' = scrolls w /\ prevented w' = prevented w.
Proof.
  unfold imdb_query, getRandomQuery, bind, Math_random, ret.
  destruct (truthy_string searchQuery); cbn.
  - eexists _, _. repeat split.
  - destruct (negb _); eexists _, _; repeat split.
Qed.

Lemma A_fetchFromIMDB_split searchQuery w :
  fetchFromIMDB searchMovies random searchQuery w =
  bind (fetchFromIMDB_start searchMovies random searchQuery) fetchFromIMDB_resume w.
Proof.
  run_A.
  match goal with
  | |- context [imdb_query random searchQuery ?W] =>
      destruct (A_imdb_query_returns searchQuery W) as (q & w1 & Hq & _)
  end.
  rewrite Hq.
  destruct (searchMovies _ _) as [r|e]; reflexivity.
Qed.

(** The part of the DB fetch after the [await], when it throws. *)
Lemma A_db_resume_throws (w : World) o err :
  db_thrown o = Some err ->
  exec (fetchFromDB_resume o) w =
  {| ui := {| dbMovies := []; imdbMovies := imdbMovies (ui w);
              dbLoading := false; imdbLoading := imdbLoading (ui w);
              dbError := "Failed to load movies from database";
              imdbError := imdbError (ui w);
              searchTerm := searchTerm (ui w); page := page (ui w);
              totalPages := totalPages (ui w) |};
     console := console w ++ [["DB fetch error:"; err]];
     requests := requests w; scrolls := scrolls w;
     prevented := prevented w; draws := draws w |}.
Proof.
  run_A. destruct o as [[[d|]]|e]; cbn; intros [= <-]; reflexivity.
Qed.

(** ... and when the DB answered. *)
Lemma A_db_resume_resolved (w : World) d :
  exec (fetchFromDB_resume (Resolved {| db_data := Some d |})) w =
  {| ui := {| dbMovies := results d; imdbMovies := imdbMovies (ui w);
              dbLoading := false; imdbLoading := imdbLoading (ui w);
              dbError := ""; imdbError := imdbError (ui w);
              searchTerm := searchTerm (ui w); page := page (ui w);
              totalPages := Math_ceil (inject_Z (count d) / inject_Z 10) |};
     console := console w;
     requests := requests w; scrolls := scrolls w;
     prevented := prevented w; draws := draws w |}.
Proof. reflexivity. Qed.

(** The part of the IMDB fetch after the [await], when the request was
    rejected. *)
Lemma A_imdb_resume_rejected (w : World) err :
  exec (fetchFromIMDB_resume (Rejected err)) w =
  {| ui := {| dbMovies := dbMovies (ui w); imdbMovies := [];
              dbLoading := dbLoading (ui w); imdbLoading := false;
              dbError := dbError (ui w);
              imdbError := "Failed to load movies from IMDB";
              searchTerm := searchTerm (ui w); page := page (ui w);
              totalPages := totalPages (ui w) |};
     console := console w ++ [["IMDB fetch error:"; err]];
     requests := requests w; scrolls := scrolls w;
     prevented := prevented w; draws := draws w |}.
Proof. reflexivity. Qed.

(** ... and when it was answered, whatever the shape of the answer. *)
Lemma A_imdb_resume_resolved (w : World) r :
  exec (fetchFromIMDB_resume (Resolved r)) w =
  {| ui := {| dbMovies := dbMovies (ui w);
              imdbMovies := match imdb_list r with Some l => l | None => [] end;
              dbLoading := dbLoading (ui w); imdbLoading := false;
              dbError := dbError (ui w); imdbError := "";
              searchTerm := searchTerm (ui w); page := page (ui w);
              totalPages := totalPages (ui w) |};
     console := console w;
     requests := requests w; scrolls := scrolls w;
     prevented := prevented w; draws := draws w |}.
Proof. run_A. destruct (imdb_list r); reflexivity. Qed.

(** Neither half of a fetch throws. *)
Lemma A_db_resume_returns (w : World) o : result (fetchFromDB_resume o) w = Ok tt.
Proof. run_A. destruct o as [[[d|]]|e]; reflexivity. Qed.

Lemma A_imdb_resume_returns (w : World) o : result (fetchFromIMDB_resume o) w = Ok tt.
Proof. run_A. destruct o as [r|e]; [destruct (imdb_list r)|]; reflexivity. Qed.

(** Frames: the DB half writes no cell of the IMDB panel ... *)
Lemma A_db_resume_frame (w : World) o :
  let w' := exec (fetchFromDB_resume o) w in
  imdbMovies (ui w') = imdbMovies (ui w) /\
  imdbError (ui w') = imdbError (ui w) /\
  imdbLoading (ui w') = imdbLoading (ui w) /\
  page (ui w') = page (ui w) /\
  searchTerm (ui w') = searchTerm (ui w).
Proof. run_A. destruct o as [[[d|]]|e]; repeat split. Qed.

(** ... and the IMDB half none of the DB panel, nor the page count. *)
Lemma A_imdb_resume_frame (w : World) o :
  let w' := exec (fetchFromIMDB_resume o) w in
  dbMovies (ui w') = dbMovies (ui w) /\
  dbError (ui w') = dbError (ui w) /\
  dbLoading (ui w') = dbLoading (ui w) /\
  totalPages (ui w') = totalPages (ui w) /\
  page (ui w') = page (ui w) /\
  searchTerm (ui w') = searchTerm (ui w).
Proof.
  run_A. destruct o as [r|e]; [destruct (imdb_list r)|]; repeat split.
Qed.

(** The parts before the [await]s. *)
Lemma A_db_start (w : World) searchQuery pageNum :
  fetchFromDB_start getMovies searchQuery pageNum w =
  (Ok (getMovies (fetch_params searchQuery pageNum) (requests w)),
   {| ui := {| dbMovies := dbMovies (ui w); imdbMovies := imdbMovies (ui w);
               dbLoading := true; imdbLoading := imdbLoading (ui w);
               dbError := dbError (ui w); imdbError := imdbError (ui w);
               searchTerm := searchTerm (ui w); page := page (ui w);
               totalPages := totalPages (ui w) |};
      console := console w;
      requests := requests w ++ [GetMovies (fetch_params searchQuery pageNum)];
      scrolls := scrolls w; prevented := prevented w; draws := draws w |}).
Proof. reflexivity. Qed.

Lemma A_imdb_start (w : World) searchQuery :
  exists n,
    fetchFromIMDB_start searchMovies random searchQuery w =
    (Ok (searchMovies (imdb_query_of random searchQuery w) (requests w)),
     {| ui := {| dbMovies := dbMovies (ui w); imdbMovies := imdbMovies (ui w);
                 dbLoading := dbLoading (ui w); imdbLoading := true;
                 dbError := dbError (ui w); imdbError := imdbError (ui w);
                 searchTerm := searchTerm (ui w); page := page (ui w);
                 totalPages := totalPages (ui w) |};
        console := console w;
        requests := requests w ++ [SearchMovies (imdb_query_of random searchQuery w)];
        scrolls := scrolls w; prevented := prevented w; draws := n |}).
Proof.
  run_A. unfold imdb_query, getRandomQuery, bind, Math_random, ret.
  destruct (truthy_string searchQuery); cbn.
  - now eexists.
  - destruct (negb _); cbn; now eexists.
Qed.

End VariantA_fetch.

(** ** The random query of the external panel *)

Section RandomQuery.
Import Js Eff Data Browser Vocabulary VariantA.




Variable random : nat -> Q.
Hypothesis random_range : forall n, (0 <= random n)%Q /\ (random n < 1)%Q.



End RandomQuery.

(** ** The card *)

Section Cards.
Import Js Data Vocabulary.

Lemma substring0_length (n : nat) (s : string) :
  (n <= String.length s)%nat -> String.length (substring0 n s) = n.
Proof.
  unfold substring0. revert s.
  induction n as [|n IH]; intros [|c s] Hn; cbn in *; try lia; try reflexivity.
  rewrite IH; [reflexivity | lia].
Qed.

Lemma substring0_prefix (n : nat) (s : string) :
  starts_with (substring0 n s) s = true.
Proof.
  unfold substring0, starts_with. revert s.
  induction n as [|n IH]; intros [|c s]; cbn; try reflexivity.
  destruct (ascii_dec c c) as [_|Hc]; [apply IH | congruence].
Qed.

Lemma substring0_all (n : nat) (s : string) :
  (String.length s <= n)%nat -> substring0 n s = s.
Proof.
  unfold substring0. revert s.
  induction n as [|n IH]; intros [|c s] Hn; cbn in *; try lia; try reflexivity.
  rewrite IH; [reflexivity | lia].
Qed.

(** The text shown for a description or plot [s] that resolved. *)
Lemma description_text_resolved (movie : Movie) (s : string) :
  resolved_description movie = Some s ->
  truthy_string s = true ->
  description_text movie =
  if (150 <? String.length s)%nat then substring0 150 s +:+ "..." else s.
Proof.
  unfold resolved_description, or_else, truthy, description_text, plot_text.
  destruct (description movie) as [d|].
  - destruct (truthy_string d) eqn:Hd.
    + intros [= ->] _. reflexivity.
    + intros -> Hs. rewrite Hs. reflexivity.
  - intros -> Hs. rewrite Hs. reflexivity.
Qed.

(** The text shown when neither resolves. *)
Lemma description_text_unresolved (movie : Movie) :
  truthy truthy_string (resolved_description movie) = false ->
  description_text movie = "No description available".
Proof.
  unfold resolved_description, or_else, truthy, description_text, plot_text.
  destruct (description movie) as [d|].
  - destruct (truthy_string d) eqn:Hd.
    + rewrite Hd. discriminate.
    + destruct (Plot movie) as [p|]; [|reflexivity].
      intros ->. reflexivity.
  - destruct (Plot movie) as [p|]; [|reflexivity].
    intros ->. reflexivity.
Qed.

(** The count and its noun. *)
Lemma rating_count_label (movie : Movie) (n : Z) :
  ratings_count movie = Some n ->
  rating_count (local_rating_block movie) =
  [Txt "("; Num n; Txt " "; Txt (if (n =? 1)%Z then "rating" else "ratings"); Txt ")"].
Proof.
  intros Hn. unfold local_rating_block. cbn. rewrite Hn. cbn.
  destruct n as [|[p|p|]|p]; reflexivity.
Qed.

End Cards.

(** ** The theme store *)

Section ThemeStore.
Import Js Theme.

Lemma initial_theme_saved (p : Page) (v : string) :
  getItem "theme" p = Some v -> v <> "" -> initial_theme p = v.
Proof.
  intros Hv Hne. unfold initial_theme. rewrite Hv.
  unfold truthy_string. destruct (String.eqb_spec v ""); [contradiction | reflexivity].
Qed.


(** The effect and its clean-up leave [localStorage] alone. *)
Lemma theme_effect_storage (t : string) (p : Page) :
  localStorage (theme_effect t p) = localStorage p.
Proof. unfold theme_effect. destruct (String.eqb t "system"); reflexivity. Qed.

Lemma theme_cleanup_storage (t : string) (p : Page) :
  localStorage (theme_cleanup t p) = localStorage p.
Proof. unfold theme_cleanup. destruct (String.eqb t "system"); reflexivity. Qed.

(** [changeTheme] has written the value when it returns. *)
Lemma changeTheme_stored (v : string) (s : Store) :
  getItem "theme" (page (changeTheme v s)) = Some v.
Proof.
  unfold getItem, changeTheme. cbn [page].
  destruct (String.eqb (theme s) v).
  - cbn. apply lookup_insert_eq.
  - rewrite theme_effect_storage, theme_cleanup_storage. cbn.
    apply lookup_insert_eq.
Qed.

(** X21.  [changeTheme] leaves every other key of [localStorage] as it
    was. *)
Lemma changeTheme_other_keys (v key : string) (s : Store) :
  key <> "theme" ->
  getItem key (page (changeTheme v s)) = getItem key (page s).
Proof.
  intros Hk. unfold getItem, changeTheme. cbn [page].
  destruct (String.eqb (theme s) v).
  - cbn. now apply lookup_insert_ne.
  - rewrite theme_effect_storage, theme_cleanup_storage. cbn.
    now apply lookup_insert_ne.
Qed.

(** A reload reads what the store had written. *)
Lemma reload_reads_storage (s : Store) :
  theme (reload s) = initial_theme (page s).
Proof. reflexivity. Qed.

(** The dropdown only ever stores one of its three values. *)
Lemma click_option_stores (i : nat) (t : Toggle) :
  isOpen t = true -> (i < 3)%nat ->
  exists v, In v ["dark"; "light"; "system"] /\
            getItem "theme" (page (store (click_option i t))) = Some v /\
            theme (store (click_option i t)) = v.
Proof.
  intros Hopen Hi. unfold click_option. rewrite Hopen.
  destruct i as [|[|[|i]]]; [| | |lia]; cbn [nth_error themes value];
    eexists; (split; [|split; [apply changeTheme_stored | reflexivity]]);
    cbn; tauto.
Qed.

End ThemeStore.

(** ** Variant A: a whole refresh *)

Section VariantA_refresh.
Import Js Eff Data Browser Vocabulary VariantA.

Variable getMovies : Params -> list Request -> Outcome DbResponse.
Variable searchMovies : option string -> list Request -> Outcome ImdbResponse.
Variable random : nat -> Q.

Ltac fields :=
  cbn [ui requests console scrolls prevented draws
       dbMovies imdbMovies dbLoading imdbLoading dbError imdbError
       searchTerm page totalPages].

Ltac fields_in H :=
  cbn [ui requests console scrolls prevented draws
       dbMovies imdbMovies dbLoading imdbLoading dbError imdbError
       searchTerm page totalPages] in H.

(** A refresh is the two starts followed by the two parts after the
    [await]s, in the order in which the requests settle. *)
Lemma A_refresh_exec (order : Order) (w : World) searchQuery pageNum :
  exists n,
    exec (fetchMovies getMovies searchMovies random order searchQuery pageNum) w =
    let db := db_settles getMovies searchQuery pageNum w in
    let imdb := imdb_settles searchMovies random searchQuery pageNum w in
    let started := refresh_started random w searchQuery pageNum n in
    match order with
    | DbFirst => exec (fetchFromIMDB_resume imdb) (exec (fetchFromDB_resume db) started)
    | ImdbFirst => exec (fetchFromDB_resume db) (exec (fetchFromIMDB_resume imdb) started)
    end.
Proof.
  unfold fetchMovies, exec at 1.
  rewrite (bind_ok _ _ _ _ _ (A_db_start getMovies w searchQuery pageNum)).
  match goal with
  | |- context [bind (fetchFromIMDB_start _ _ _) _ ?W] =>
      destruct (A_imdb_start searchMovies random W searchQuery) as [n Hstart];
      rewrite (bind_ok _ _ _ _ _ Hstart);
      rewrite (imdb_query_of_draws random searchQuery W w eq_refl)
  end.
  fields. exists n. cbv zeta.
  unfold db_settles, imdb_settles, refresh_started.
  rewrite <- app_assoc. cbn [app].
  destruct order.
  - rewrite (bind_ok _ _ _ _ _ (run_result _ _ _ (A_db_resume_returns _ _))).
    reflexivity.
  - rewrite (bind_ok _ _ _ _ _ (run_result _ _ _ (A_imdb_resume_returns _ _))).
    reflexivity.
Qed.

(** The cells after a refresh, in terms of how its two requests settled;
    the order in which they settled does not show. *)
Lemma A_refresh_ui (order : Order) (w : World) searchQuery pageNum :
  let db := db_settles getMovies searchQuery pageNum w in
  let imdb := imdb_settles searchMovies random searchQuery pageNum w in
  ui (exec (fetchMovies getMovies searchMovies random order searchQuery pageNum) w) =
  {| dbMovies := match db with
                 | Resolved {| db_data := Some d |} => results d
                 | _ => []
                 end;
     imdbMovies := match imdb with
                   | Resolved r => match imdb_list r with Some l => l | None => [] end
                   | Rejected _ => []
                   end;
     dbLoading := false;
     imdbLoading := false;
     dbError := match db_thrown db with
                | Some _ => "Failed to load movies from database"
                | None => ""
                end;
     imdbError := match imdb with
                  | Resolved _ => ""
                  | Rejected _ => "Failed to load movies from IMDB"
                  end;
     searchTerm := searchTerm (ui w);
     page := page (ui w);
     totalPages := match db with
                   | Resolved {| db_data := Some d |} =>
                       Math_ceil (inject_Z (count d) / inject_Z 10)
                   | _ => totalPages (ui w)
                   end |}.
Proof.
  intros db imdb.
  destruct (A_refresh_exec order w searchQuery pageNum) as [n ->].
  cbv zeta. fold db imdb. clearbody db imdb.
  destruct db as [[[d|]]|e]; destruct imdb as [r|e']; destruct order;
    rewrite ?A_db_resume_resolved, ?A_imdb_resume_resolved, ?A_imdb_resume_rejected;
    try (erewrite A_db_resume_throws by reflexivity);
    rewrite ?A_db_resume_resolved, ?A_imdb_resume_resolved, ?A_imdb_resume_rejected;
    unfold refresh_started; fields; reflexivity.
Qed.

(** Neither part after the [await]s sends a request. *)
Lemma A_db_resume_requests (w : World) o :
  requests (exec (fetchFromDB_resume o) w) = requests w.
Proof.
  destruct o as [[[d|]]|e].
  - now rewrite A_db_resume_resolved.
  - now erewrite A_db_resume_throws by reflexivity.
  - now erewrite A_db_resume_throws by reflexivity.
Qed.

Lemma A_imdb_resume_requests (w : World) o :
  requests (exec (fetchFromIMDB_resume o) w) = requests w.
Proof.
  destruct o as [r|e].
  - now rewrite A_imdb_resume_resolved.
  - now rewrite A_imdb_resume_rejected.
Qed.

(** The requests of a refresh: the DB request, then the IMDB request. *)
Lemma A_refresh_requests (order : Order) (w : World) searchQuery pageNum :
  requests (exec (fetchMovies getMovies searchMovies random order searchQuery pageNum) w) =
  requests w ++ [GetMovies (fetch_params searchQuery pageNum);
                 SearchMovies (imdb_query_of random searchQuery w)].
Proof.
  destruct (A_refresh_exec order w searchQuery pageNum) as [n ->].
  cbv zeta.
  destruct order; rewrite ?A_db_resume_requests, ?A_imdb_resume_requests;
    rewrite ?A_db_resume_requests, ?A_imdb_resume_requests; reflexivity.
Qed.

(** Run on its own, each fetch writes the cells of its own panel only:
    the DB fetch none of the IMDB panel ... *)
Lemma A_fetchFromDB_frame (w : World) searchQuery pageNum :
  let w' := exec (fetchFromDB getMovies searchQuery pageNum) w in
  imdbMovies (ui w') = imdbMovies (ui w) /\
  imdbError (ui w') = imdbError (ui w) /\
  imdbLoading (ui w') = imdbLoading (ui w) /\
  page (ui w') = page (ui w) /\
  searchTerm (ui w') = searchTerm (ui w).
Proof.
  cbv zeta. unfold exec at 1 2 3 4 5. rewrite A_fetchFromDB_split.
  rewrite (bind_ok _ _ _ _ _ (A_db_start getMovies w searchQuery pageNum)).
  match goal with
  | |- context [fetchFromDB_resume ?o ?W] =>
      pose proof (A_db_resume_frame W o) as H
  end.
  cbv zeta in H. unfold exec in H. fields_in H. exact H.
Qed.

(** ... and the IMDB fetch none of the DB panel, nor the page number or
    the page count. *)
Lemma A_fetchFromIMDB_frame (w : World) searchQuery :
  let w' := exec (fetchFromIMDB searchMovies random searchQuery) w in
  dbMovies (ui w') = dbMovies (ui w) /\
  dbError (ui w') = dbError (ui w) /\
  dbLoading (ui w') = dbLoading (ui w) /\
  totalPages (ui w') = totalPages (ui w) /\
  page (ui w') = page (ui w) /\
  searchTerm (ui w') = searchTerm (ui w).
Proof.
  cbv zeta. unfold exec at 1 2 3 4 5 6. rewrite A_fetchFromIMDB_split.
  destruct (A_imdb_start searchMovies random w searchQuery) as [n Hstart].
  rewrite (bind_ok _ _ _ _ _ Hstart).
  match goal with
  | |- context [fetchFromIMDB_resume ?o ?W] =>
      pose proof (A_imdb_resume_frame W o) as H
  end.
  cbv zeta in H. unfold exec in H. fields_in H. exact H.
Qed.


(** A submitted search is the reset of the page followed by a refresh
    with the text of the search field and page 1. *)
Lemma A_handleSearch_exec (order : Order) (w : World) :
  exec (handleSearch getMovies searchMovies random order) w =
  exec (fetchMovies getMovies searchMovies random order (searchTerm (ui w)) 1)
       (exec (bind preventDefault (fun _ => setPage 1)) w).
Proof. reflexivity. Qed.

End VariantA_refresh.

(** * The statements of the specification *)

Section Statements.
Import Js Eff Data Browser Vocabulary.

(** ** Page count *)

(** C1, as the code has it.  Whenever a DB fetch records a page count from
    a total count [C] -- in the two-panel view each time the DB answers,
    in the fallback view each time the DB answers and its list is shown
    (no query, or a non-empty list) -- the count recorded is
    [ceil(C / 10)]: the least [n] with [C <= 10 n].  It is at least 1
    exactly when [C] is at least 1; a total count of zero gives zero
    pages. *)
Theorem total_pages_from_count (C : Z) (l : list Movie) :
  (forall getMovies searchMovies random order (w : VariantA.World) searchQuery pageNum,
      db_settles getMovies searchQuery pageNum w =
        Resolved {| db_data := Some {| results := l; count := C |} |} ->
      let n := VariantA.totalPages
                 (ui (exec (VariantA.fetchMovies getMovies searchMovies random order
                                                 searchQuery pageNum) w)) in
      (10 * (n - 1) < C <= 10 * n)%Z /\
      ((1 <= n)%Z <-> (1 <= C)%Z) /\
      (C = 0%Z -> n = 0%Z))
  /\
  (forall getMovies searchIMDB (w : VariantB.World) searchQuery pageNum,
      getMovies (fetch_params searchQuery pageNum) (requests w) =
        Resolved {| db_data := Some {| results := l; count := C |} |} ->
      searchQuery = "" \/ l <> [] ->
      let n := VariantB.totalPages
                 (ui (exec (VariantB.fetchMovies getMovies searchIMDB
                                                 searchQuery pageNum) w)) in
      (10 * (n - 1) < C <= 10 * n)%Z /\
      ((1 <= n)%Z <-> (1 <= C)%Z) /\
      (C = 0%Z -> n = 0%Z)).
Proof.
  split.
  - intros getMovies searchMovies random order w searchQuery pageNum Hdb n.
    subst n. rewrite A_refresh_ui. cbn [VariantA.totalPages].
    rewrite Hdb. cbn [count].
    split; [apply Math_ceil_div10_spec|].
    split; [apply Math_ceil_div10_pos|].
    intros ->. apply Math_ceil_div10_zero.
  - intros getMovies searchIMDB w searchQuery pageNum Hdb Hshown n.
    subst n.
    rewrite (B_fetch_db_shown getMovies searchIMDB w searchQuery pageNum _ Hdb).
    + cbn [ui VariantB.totalPages count].
      split; [apply Math_ceil_div10_spec|].
      split; [apply Math_ceil_div10_pos|].
      intros ->. apply Math_ceil_div10_zero.
    + cbn [results]. destruct Hshown as [-> | Hl]; [reflexivity|].
      destruct l; [contradiction|]. apply andb_false_r.
Qed.

(** With 25 movies in the DB both views count 3 pages. *)
Lemma total_pages_from_count_witness :
  VariantA.totalPages
    (ui (exec (VariantA.fetchMovies (db_answers [local_movie] 25) (legacy_answers [])
                                    (always 0) VariantA.DbFirst "" 1) VariantA.boot)) = 3%Z
  /\
  VariantB.totalPages
    (ui (exec (VariantB.fetchMovies (db_answers [local_movie] 25) (imdb_answers [])
                                    "heat" 1) VariantB.boot)) = 3%Z.
Proof.
  destruct (total_pages_from_count 25 [local_movie]) as [HA HB].
  split.
  - specialize (HA (db_answers [local_movie] 25) (legacy_answers []) (always 0)
                   VariantA.DbFirst VariantA.boot "" 1%Z eq_refl).
    cbv zeta in HA. lia.
  - assert (Hshown : "heat" = "" \/ [local_movie] <> []) by (right; discriminate).
    specialize (HB (db_answers [local_movie] 25) (imdb_answers [])
                   VariantB.boot "heat" 1%Z eq_refl Hshown).
    cbv zeta in HB. lia.
Defined.

(** C1 as stated fails for an empty catalog: with a total count of 0 the
    page count recorded is 0, not 1, in both views. *)
Lemma total_pages_zero_count :
  ~ (1 <= VariantA.totalPages
            (ui (exec (VariantA.fetchMovies (db_answers [] 0) (legacy_answers [])
                                            (always 0) VariantA.DbFirst "" 1)
                      VariantA.boot)))%Z
  /\
  ~ (1 <= VariantB.totalPages
            (ui (exec (VariantB.fetchMovies (db_answers [] 0) (imdb_answers []) "" 1)
                      VariantB.boot)))%Z.
Proof. split; vm_compute; intros H; apply H; reflexivity. Qed.

(** ** The fallback view *)

(** C2.  In the fallback view, a fetch with a non-empty query for which
    the DB answers with no result asks IMDB.  If IMDB answers with a
    non-empty list, that list is shown, the source is IMDB, the page
    count is set to 1, no pagination is rendered and the banner is.  If
    IMDB answers with an empty list or without [data] or [results], or if
    the request fails, the list shown is empty, the source is the DB,
    there is no banner and no error message, the "no movies" text is
    shown once loading is over, and the failure, if any, is only written
    to the console. *)
Theorem fallback_to_imdb getMovies searchIMDB (w : VariantB.World)
        searchQuery pageNum d :
  searchQuery <> "" ->
  getMovies (fetch_params searchQuery pageNum) (requests w)
    = Resolved {| db_data := Some d |} ->
  results d = [] ->
  let asked := searchIMDB searchQuery
                 (requests w ++ [GetMovies (fetch_params searchQuery pageNum)]) in
  let w' := exec (VariantB.fetchMovies getMovies searchIMDB searchQuery pageNum) w in
  let view := VariantB.render (ui w') in
  (forall r l,
      asked = Resolved r ->
      VariantB.imdb_data r = Some {| VariantB.imdb_results := Some l |} ->
      l <> [] ->
      VariantB.movies (ui w') = l /\
      VariantB.movie_grid view = map (VariantB.renderMovieCard (ui w')) l /\
      Forall (fun card => source_badge card = true) (VariantB.movie_grid view) /\
      VariantB.searchSource (ui w') = Some VariantB.Imdb /\
      VariantB.totalPages (ui w') = 1%Z /\
      VariantB.pagination view = None /\
      VariantB.search_info view =
        Some "✨ Showing results from IMDB. No matches found in our database." /\
      VariantB.error_message view = None /\
      VariantB.loading_message view = None /\
      console w' = console w)
  /\
  (forall r,
      asked = Resolved r ->
      VariantB.imdb_data r = None \/
      VariantB.imdb_data r = Some {| VariantB.imdb_results := None |} \/
      VariantB.imdb_data r = Some {| VariantB.imdb_results := Some [] |} ->
      VariantB.movies (ui w') = [] /\
      VariantB.movie_grid view = [] /\
      VariantB.searchSource (ui w') = Some VariantB.Db /\
      VariantB.search_info view = None /\
      VariantB.error_message view = None /\
      VariantB.loading_message view = None /\
      VariantB.no_movies view <> None /\
      console w' = console w)
  /\
  (forall imdbErr,
      asked = Rejected imdbErr ->
      VariantB.movies (ui w') = [] /\
      VariantB.movie_grid view = [] /\
      VariantB.searchSource (ui w') = Some VariantB.Db /\
      VariantB.search_info view = None /\
      VariantB.error_message view = None /\
      VariantB.loading_message view = None /\
      VariantB.no_movies view <> None /\
      console w' = console w ++ [["IMDB search failed:"; imdbErr]]).
Proof.
  intros Hquery Hdb Hnone asked w' view.
  assert (Hbranch : truthy_string searchQuery && (length (results d) =? 0)%nat = true).
  { rewrite Hnone. unfold truthy_string.
    destruct (String.eqb_spec searchQuery ""); [contradiction | reflexivity]. }
  split; [|split].
  - intros r l Hr Hshape Hl.
    assert (Hhit : VariantB.imdb_hit r = Some l).
    { unfold VariantB.imdb_hit. rewrite Hshape. cbn.
      destruct l; [contradiction | reflexivity]. }
    subst view w'.
    rewrite (B_fetch_imdb_hit getMovies searchIMDB w searchQuery pageNum d r l
                              Hdb Hbranch Hr Hhit).
    cbn. repeat split.
    apply Forall_forall. intros card Hcard.
    apply list_elem_of_In, in_map_iff in Hcard.
    destruct Hcard as (m & <- & _). reflexivity.
  - intros r Hr Hshape.
    assert (Hhit : VariantB.imdb_hit r = None).
    { unfold VariantB.imdb_hit.
      destruct Hshape as [-> | [-> | ->]]; reflexivity. }
    subst view w'.
    rewrite (B_fetch_imdb_empty getMovies searchIMDB w searchQuery pageNum d r
                                Hdb Hbranch Hr Hhit).
    cbn. repeat split. discriminate.
  - intros imdbErr Hr.
    subst view w'.
    rewrite (B_fetch_imdb_rejected getMovies searchIMDB w searchQuery pageNum d imdbErr
                                   Hdb Hbranch Hr).
    cbn. repeat split. discriminate.
Qed.

(** The query "zzzqqq" of the specification, against an empty DB: with
    one external movie found, with an answer without [data], and with
    IMDB down. *)
Lemma fallback_to_imdb_witness :
  VariantB.search_info
    (VariantB.render
       (ui (exec (VariantB.fetchMovies (db_answers [] 0) (imdb_answers [external_movie])
                                       "zzzqqq" 1) VariantB.boot)))
    = Some "✨ Showing results from IMDB. No matches found in our database."
  /\
  VariantB.searchSource
    (ui (exec (VariantB.fetchMovies (db_answers [] 0) imdb_shapeless "zzzqqq" 1)
              VariantB.boot)) = Some VariantB.Db
  /\
  VariantB.error_message
    (VariantB.render
       (ui (exec (VariantB.fetchMovies (db_answers [] 0) imdb_down "zzzqqq" 1)
                 VariantB.boot))) = None.
Proof.
  assert (Hq : "zzzqqq" <> "") by discriminate.
  split; [|split].
  - pose proof (fallback_to_imdb (db_answers [] 0) (imdb_answers [external_movie])
                  VariantB.boot "zzzqqq" 1%Z {| results := []; count := 0 |}
                  Hq eq_refl eq_refl) as H.
    cbv zeta in H. destruct H as [H _].
    assert (Hl : [external_movie] <> []) by discriminate.
    specialize (H _ [external_movie] eq_refl eq_refl Hl).
    apply H.
  - pose proof (fallback_to_imdb (db_answers [] 0) imdb_shapeless
                  VariantB.boot "zzzqqq" 1%Z {| results := []; count := 0 |}
                  Hq eq_refl eq_refl) as H.
    cbv zeta in H. destruct H as [_ [H _]].
    specialize (H _ eq_refl (or_introl eq_refl)).
    apply H.
  - pose proof (fallback_to_imdb (db_answers [] 0) imdb_down
                  VariantB.boot "zzzqqq" 1%Z {| results := []; count := 0 |}
                  Hq eq_refl eq_refl) as H.
    cbv zeta in H. destruct H as [_ [_ H]].
    specialize (H _ eq_refl).
    apply H.
Defined.



(** ** Submitting a search *)

(** C7.  In both views, submitting the search form first sets the page
    to 1 -- no request has been sent at that point -- and then runs the
    fetch with the text of the search field and page 1: the DB request
    carries page 1 and that text, in the two-panel view the IMDB request
    follows it, and the page is still 1 and the text unchanged when the
    fetch is over. *)
Theorem search_submit_resets_page :
  (forall getMovies searchIMDB (w : VariantB.World),
      let term := VariantB.searchTerm (ui w) in
      let reset := exec (bind preventDefault (fun _ => VariantB.setPage 1)) w in
      let w' := exec (VariantB.handleSearch getMovies searchIMDB) w in
      VariantB.page (ui reset) = 1%Z /\
      requests reset = requests w /\
      w' = exec (VariantB.fetchMovies getMovies searchIMDB term 1) reset /\
      (exists rest,
          requests w' =
          requests w ++
            GetMovies {| p_page := 1;
                         p_search := if truthy_string term then Some term else None |}
            :: rest) /\
      VariantB.page (ui w') = 1%Z /\
      VariantB.searchTerm (ui w') = term)
  /\
  (forall getMovies searchMovies random order (w : VariantA.World),
      let term := VariantA.searchTerm (ui w) in
      let reset := exec (bind preventDefault (fun _ => VariantA.setPage 1)) w in
      let w' := exec (VariantA.handleSearch getMovies searchMovies random order) w in
      VariantA.page (ui reset) = 1%Z /\
      requests reset = requests w /\
      w' = exec (VariantA.fetchMovies getMovies searchMovies random order term 1) reset /\
      requests w' =
        requests w ++
          [GetMovies {| p_page := 1;
                        p_search := if truthy_string term then Some term else None |};
           SearchMovies (if truthy_string term then Some term
                         else imdb_query_of random "" w)] /\
      VariantA.page (ui w') = 1%Z /\
      VariantA.searchTerm (ui w') = term).
Proof.
  split.
  - intros getMovies searchIMDB w term reset w'.
    assert (Hw' : w' = exec (VariantB.fetchMovies getMovies searchIMDB term 1) reset)
      by apply B_handleSearch_exec.
    split; [reflexivity|]. split; [reflexivity|]. split; [exact Hw'|].
    rewrite Hw'.
    destruct (B_fetch_frame getMovies searchIMDB reset term 1) as [Hpage Hterm].
    split; [|split; [rewrite Hpage; reflexivity | rewrite Hterm; reflexivity]].
    destruct (B_fetch_first_request getMovies searchIMDB reset term 1) as [rest Hrest].
    exists rest. exact Hrest.
  - intros getMovies searchMovies random order w term reset w'.
    assert (Hw' : w' = exec (VariantA.fetchMovies getMovies searchMovies random order
                                                  term 1) reset)
      by apply A_handleSearch_exec.
    split; [reflexivity|]. split; [reflexivity|]. split; [exact Hw'|].
    rewrite Hw'. rewrite A_refresh_requests, A_refresh_ui.
    split; [|split; reflexivity].
    cbn [requests]. f_equal. unfold fetch_params. f_equal. f_equal.
    unfold imdb_query_of.
    rewrite (A_imdb_query_draws random term reset w eq_refl).
    unfold VariantA.imdb_query, result.
    destruct (truthy_string term) eqn:Hterm; [reflexivity|].
    unfold truthy_string in Hterm.
    destruct (String.eqb_spec term ""); [|discriminate].
    reflexivity.
Qed.

(** ** The two-panel view *)

(** C3, as the code has it.  In the two-panel view, when the IMDB request
    is rejected the IMDB panel shows no movie and the error message;
    when it is answered without [data] or without [data.description]
    the panel shows no movie and no error message, only the "no movies"
    text.  An IMDB fetch writes neither the page number nor the page
    count, and the IMDB panel has no pagination block. *)
Theorem imdb_panel_failure getMovies searchMovies random order (w : VariantA.World)
        searchQuery pageNum :
  let imdb := imdb_settles searchMovies random searchQuery pageNum w in
  let w' := exec (VariantA.fetchMovies getMovies searchMovies random order
                                       searchQuery pageNum) w in
  let panel := VariantA.render_imdb (ui w') in
  (forall err,
      imdb = Rejected err ->
      VariantA.imdb_grid panel = [] /\
      VariantA.imdb_error_message panel = Some "Failed to load movies from IMDB" /\
      VariantA.imdb_no_movies panel = None /\
      VariantA.imdb_loading_message panel = None)
  /\
  (forall r,
      imdb = Resolved r ->
      VariantA.imdb_data r = None \/
      VariantA.imdb_data r = Some {| VariantA.imdb_description := None |} ->
      VariantA.imdb_grid panel = [] /\
      VariantA.imdb_error_message panel = None /\
      VariantA.imdb_no_movies panel = Some "No movies found from IMDB." /\
      VariantA.imdb_loading_message panel = None)
  /\
  (forall (w0 : VariantA.World) query,
      let w1 := exec (VariantA.fetchFromIMDB searchMovies random query) w0 in
      VariantA.page (ui w1) = VariantA.page (ui w0) /\
      VariantA.totalPages (ui w1) = VariantA.totalPages (ui w0) /\
      VariantA.db_pagination (VariantA.render_db (ui w1)) =
        VariantA.db_pagination (VariantA.render_db (ui w0))).
Proof.
  intros imdb w' panel. subst panel w'. rewrite A_refresh_ui.
  fold imdb. split; [|split].
  - intros err ->. cbn. repeat split.
  - intros r -> Hshape.
    assert (Hlist : VariantA.imdb_list r = None)
      by (unfold VariantA.imdb_list; destruct Hshape as [-> | ->]; reflexivity).
    cbn. rewrite Hlist. cbn. repeat split.
  - intros w0 query w1.
    destruct (A_fetchFromIMDB_frame searchMovies random w0 query)
      as (_ & _ & _ & Hpages & Hpage & _).
    fold w1 in Hpages, Hpage.
    split; [exact Hpage|]. split; [exact Hpages|].
    unfold VariantA.render_db. cbn [VariantA.db_pagination].
    rewrite Hpages, Hpage. reflexivity.
Qed.

(** IMDB down, and IMDB answering without [data]. *)
Lemma imdb_panel_failure_witness :
  VariantA.imdb_error_message
    (VariantA.render_imdb
       (ui (exec (VariantA.fetchMovies (db_answers [local_movie] 1) legacy_down
                                       (always 0) VariantA.DbFirst "heat" 1)
                 VariantA.boot)))
    = Some "Failed to load movies from IMDB"
  /\
  VariantA.imdb_no_movies
    (VariantA.render_imdb
       (ui (exec (VariantA.fetchMovies (db_answers [local_movie] 1) legacy_shapeless
                                       (always 0) VariantA.DbFirst "heat" 1)
                 VariantA.boot)))
    = Some "No movies found from IMDB.".
Proof.
  split.
  - pose proof (imdb_panel_failure (db_answers [local_movie] 1) legacy_down (always 0)
                  VariantA.DbFirst VariantA.boot "heat" 1%Z) as H.
    cbv zeta in H. destruct H as [H _].
    specialize (H _ eq_refl). apply H.
  - pose proof (imdb_panel_failure (db_answers [local_movie] 1) legacy_shapeless
                  (always 0) VariantA.DbFirst VariantA.boot "heat" 1%Z) as H.
    cbv zeta in H. destruct H as [_ [H _]].
    specialize (H _ eq_refl (or_introl eq_refl)). apply H.
Defined.

(** C3 as stated fails for an answer of the wrong shape: an answer
    without [data] leaves the IMDB panel empty and without any error
    message. *)
Lemma imdb_shapeless_no_error :
  let w' := exec (VariantA.fetchMovies (db_answers [local_movie] 1) legacy_shapeless
                                       (always 0) VariantA.DbFirst "heat" 1)
                 VariantA.boot in
  imdb_settles legacy_shapeless (always 0) "heat" 1 VariantA.boot
    = Resolved {| VariantA.imdb_data := None |} /\
  VariantA.imdb_grid (VariantA.render_imdb (ui w')) = [] /\
  VariantA.imdb_error_message (VariantA.render_imdb (ui w')) = None /\
  VariantA.imdbError (ui w') = "".
Proof. cbv zeta. repeat split. Qed.

(** C4.  In the two-panel view, whichever request settles first: when
    the DB fetch throws and IMDB answers with a list, the DB panel shows
    its own error text and the IMDB panel renders every movie of the
    list, without error; when the IMDB request is rejected and the DB
    answers, the IMDB panel shows its own error text and the DB panel
    renders every movie of the page, without error.  The cells of one
    panel (its list, its error, its loading flag) are never written by
    the fetch of the other. *)
Theorem panels_fail_apart getMovies searchMovies random order (w : VariantA.World)
        searchQuery pageNum :
  let db := db_settles getMovies searchQuery pageNum w in
  let imdb := imdb_settles searchMovies random searchQuery pageNum w in
  let w' := exec (VariantA.fetchMovies getMovies searchMovies random order
                                       searchQuery pageNum) w in
  let view := VariantA.render (ui w') in
  (forall err r l,
      db_thrown db = Some err ->
      imdb = Resolved r ->
      VariantA.imdb_list r = Some l ->
      VariantA.db_error_message (VariantA.db_panel view)
        = Some "Failed to load movies from database" /\
      VariantA.db_grid (VariantA.db_panel view) = [] /\
      VariantA.imdb_grid (VariantA.imdb_panel view)
        = map (fun movie => VariantA.renderMovieCard movie true) l /\
      VariantA.imdb_error_message (VariantA.imdb_panel view) = None /\
      VariantA.imdb_loading_message (VariantA.imdb_panel view) = None /\
      VariantA.db_loading_message (VariantA.db_panel view) = None)
  /\
  (forall err d,
      imdb = Rejected err ->
      db = Resolved {| db_data := Some d |} ->
      VariantA.imdb_error_message (VariantA.imdb_panel view)
        = Some "Failed to load movies from IMDB" /\
      VariantA.imdb_grid (VariantA.imdb_panel view) = [] /\
      VariantA.db_grid (VariantA.db_panel view)
        = map (fun movie => VariantA.renderMovieCard movie false) (results d) /\
      VariantA.db_error_message (VariantA.db_panel view) = None /\
      VariantA.db_loading_message (VariantA.db_panel view) = None /\
      VariantA.imdb_loading_message (VariantA.imdb_panel view) = None)
  /\
  (forall (w0 : VariantA.World) query pg,
      let w1 := exec (VariantA.fetchFromDB getMovies query pg) w0 in
      VariantA.imdbMovies (ui w1) = VariantA.imdbMovies (ui w0) /\
      VariantA.imdbError (ui w1) = VariantA.imdbError (ui w0) /\
      VariantA.imdbLoading (ui w1) = VariantA.imdbLoading (ui w0))
  /\
  (forall (w0 : VariantA.World) query,
      let w1 := exec (VariantA.fetchFromIMDB searchMovies random query) w0 in
      VariantA.dbMovies (ui w1) = VariantA.dbMovies (ui w0) /\
      VariantA.dbError (ui w1) = VariantA.dbError (ui w0) /\
      VariantA.dbLoading (ui w1) = VariantA.dbLoading (ui w0))
  /\
  ui (exec (VariantA.fetchMovies getMovies searchMovies random VariantA.DbFirst
                                 searchQuery pageNum) w) =
  ui (exec (VariantA.fetchMovies getMovies searchMovies random VariantA.ImdbFirst
                                 searchQuery pageNum) w).
Proof.
  intros db imdb w' view. subst view w'. rewrite !A_refresh_ui.
  fold db imdb. clearbody db imdb. repeat apply conj.
  - intros err r l Hthrown -> Hl.
    destruct db as [[[d|]]|e]; [discriminate Hthrown | |];
      cbn; rewrite Hl; repeat split.
  - intros err d -> ->. cbn. repeat split.
  - intros w0 query pg w1.
    destruct (A_fetchFromDB_frame getMovies w0 query pg) as (H1 & H2 & H3 & _).
    repeat split; assumption.
  - intros w0 query w1.
    destruct (A_fetchFromIMDB_frame searchMovies random w0 query)
      as (H1 & H2 & H3 & _).
    repeat split; assumption.
  - reflexivity.
Qed.

(** The DB down with IMDB answering, and IMDB down with the DB
    answering, the failing request settling last. *)
Lemma panels_fail_apart_witness :
  VariantA.imdb_grid
    (VariantA.imdb_panel
       (VariantA.render
          (ui (exec (VariantA.fetchMovies db_down (legacy_answers [external_movie])
                                          (always 0) VariantA.ImdbFirst "heat" 1)
                    VariantA.boot))))
    = [VariantA.renderMovieCard external_movie true]
  /\
  VariantA.db_grid
    (VariantA.db_panel
       (VariantA.render
          (ui (exec (VariantA.fetchMovies (db_answers [local_movie] 1) legacy_down
                                          (always 0) VariantA.DbFirst "heat" 1)
                    VariantA.boot))))
    = [VariantA.renderMovieCard local_movie false].
Proof.
  split.
  - pose proof (panels_fail_apart db_down (legacy_answers [external_movie]) (always 0)
                  VariantA.ImdbFirst VariantA.boot "heat" 1%Z) as H.
    cbv zeta in H. destruct H as [H _].
    specialize (H "Network Error" _ [external_movie] eq_refl eq_refl eq_refl).
    apply H.
  - pose proof (panels_fail_apart (db_answers [local_movie] 1) legacy_down (always 0)
                  VariantA.DbFirst VariantA.boot "heat" 1%Z) as H.
    cbv zeta in H. destruct H as [_ [H _]].
    specialize (H "Network Error" {| results := [local_movie]; count := 1 |}
                  eq_refl eq_refl).
    apply H.
Defined.

(** ** The random query *)



(** X20.  Each of the ten words and each of the twenty-six letters is the
    term [getRandomQuery] returns for some pair of draws in [[0, 1)]. *)
Lemma random_query_reaches (w : VariantA.World) (q : string) :
  In q VariantA.randomWords \/ In q lowercase_letters ->
  exists first next,
    (0 <= first)%Q /\ (first < 1)%Q /\ (0 <= next)%Q /\ (next < 1)%Q /\
    result (VariantA.getRandomQuery (drawing (draws w) first next)) w = Ok (Some q).
Proof.
  assert (Hrun : forall first next,
             result (VariantA.getRandomQuery (drawing (draws w) first next)) w =
             if negb (Qle_bool first (1 # 2))
             then Ok (VariantA.index_list VariantA.randomWords
                        (Math_floor (next * inject_Z 10)))
             else Ok (VariantA.index_string VariantA.randomLetters
                        (Math_floor (next * inject_Z 26)))).
  { intros first next.
    unfold VariantA.getRandomQuery, result, bind, Math_random, ret, drawing.
    cbn [draws fst snd].
    rewrite Nat.eqb_refl.
    assert (Hnext : Nat.eqb (S (draws w)) (draws w) = false)
      by (apply Nat.eqb_neq; lia).
    destruct (negb (Qle_bool first (1 # 2)));
      cbn [draws fst snd]; rewrite Hnext; reflexivity. }
  intros [Hin | Hin].
  - cbn in Hin.
    repeat (destruct Hin as [<- | Hin];
            [ match goal with
              | |- context [Some ?word] =>
                  let i := eval vm_compute in
                    (match find (fun k => match nth_error VariantA.randomWords k with
                                          | Some x => String.eqb x word
                                          | None => false
                                          end) (seq 0 10) with
                     | Some k => Z.of_nat k
                     | None => 0%Z
                     end) in
                  exists (3 # 4)%Q, ((2 * i + 1) # 20)%Q
              end;
              rewrite Hrun;
              repeat split; try (unfold Qle, Qlt; simpl; lia)
            | ]).
    contradiction.
  - cbn in Hin.
    repeat (destruct Hin as [<- | Hin];
            [ match goal with
              | |- context [Some ?letter] =>
                  let i := eval vm_compute in
                    (match find (fun k => match nth_error lowercase_letters k with
                                          | Some x => String.eqb x letter
                                          | None => false
                                          end) (seq 0 26) with
                     | Some k => Z.of_nat k
                     | None => 0%Z
                     end) in
                  exists (1 # 4)%Q, ((2 * i + 1) # 52)%Q
              end;
              rewrite Hrun;
              repeat split; try (unfold Qle, Qlt; simpl; lia)
            | ]).
    contradiction.
Qed.

(** ** The card *)

(** C5.  On every card of either view, when the description, or failing
    it the plot, resolves to a string of length [L], the text shown is
    the whole string if [L <= 150] (so also for [L = 150]) and its first
    150 characters followed by ["..."] if [L > 150]; when neither
    resolves the text shown is ["No description available"]. *)
Theorem description_truncation (movie : Movie) (card : Card) :
  (exists isIMDBMovie, card = VariantA.renderMovieCard movie isIMDBMovie) \/
  (exists state, card = VariantB.renderMovieCard state movie) ->
  (forall s,
      resolved_description movie = Some s -> s <> "" ->
      ((String.length s <= 150)%nat -> movie_description card = s) /\
      (String.length s = 150%nat -> movie_description card = s) /\
      ((150 < String.length s)%nat ->
       movie_description card = substring0 150 s +:+ "..." /\
       String.length (substring0 150 s) = 150%nat /\
       starts_with (substring0 150 s) s = true))
  /\
  (resolved_description movie = None \/ resolved_description movie = Some "" ->
   movie_description card = "No description available").
Proof.
  intros Hcard.
  assert (Htext : movie_description card = description_text movie)
    by (destruct Hcard as [[b ->] | [st ->]]; reflexivity).
  rewrite Htext. split.
  - intros s Hs Hne.
    assert (Htruthy : truthy_string s = true)
      by (unfold truthy_string; destruct (String.eqb_spec s "");
          [contradiction | reflexivity]).
    rewrite (description_text_resolved movie s Hs Htruthy).
    split; [|split].
    + intros Hle. destruct (Nat.ltb_spec 150 (String.length s)); [lia | reflexivity].
    + intros Heq. rewrite Heq. reflexivity.
    + intros Hlt. destruct (Nat.ltb_spec 150 (String.length s)); [|lia].
      split; [reflexivity|].
      split; [apply substring0_length; lia | apply substring0_prefix].
  - intros Hnone. apply description_text_unresolved.
    destruct Hnone as [-> | ->]; reflexivity.
Qed.

(** A description of exactly 150 characters is shown whole, one of 151
    is cut, and a movie with no text gets the placeholder. *)
Lemma description_truncation_witness :
  movie_description (VariantA.renderMovieCard (described (letters 150)) false)
    = letters 150
  /\
  movie_description (VariantB.renderMovieCard VariantB.initial (described (letters 151)))
    = letters 150 +:+ "..."
  /\
  movie_description (VariantA.renderMovieCard empty_movie true)
    = "No description available".
Proof.
  split; [|split].
  - assert (Hcard : (exists b, VariantA.renderMovieCard (described (letters 150)) false
                               = VariantA.renderMovieCard (described (letters 150)) b) \/
                    (exists st, VariantA.renderMovieCard (described (letters 150)) false
                                = VariantB.renderMovieCard st (described (letters 150))))
      by (left; exists false; reflexivity).
    destruct (description_truncation (described (letters 150)) _ Hcard) as [H _].
    assert (Hne : letters 150 <> "") by discriminate.
    destruct (H (letters 150) eq_refl Hne) as (_ & H150 & _).
    apply H150. reflexivity.
  - assert (Hcard : (exists b, VariantB.renderMovieCard VariantB.initial
                                 (described (letters 151))
                               = VariantA.renderMovieCard (described (letters 151)) b) \/
                    (exists st, VariantB.renderMovieCard VariantB.initial
                                  (described (letters 151))
                                = VariantB.renderMovieCard st (described (letters 151))))
      by (right; exists VariantB.initial; reflexivity).
    destruct (description_truncation (described (letters 151)) _ Hcard) as [H _].
    assert (Hne : letters 151 <> "") by discriminate.
    destruct (H (letters 151) eq_refl Hne) as (_ & _ & Hcut).
    assert (Hlong : (150 < String.length (letters 151))%nat) by (vm_compute; lia).
    destruct (Hcut Hlong) as [Htext _].
    rewrite Htext. reflexivity.
  - assert (Hcard : (exists b, VariantA.renderMovieCard empty_movie true
                               = VariantA.renderMovieCard empty_movie b) \/
                    (exists st, VariantA.renderMovieCard empty_movie true
                                = VariantB.renderMovieCard st empty_movie))
      by (left; exists true; reflexivity).
    destruct (description_truncation empty_movie _ Hcard) as [_ H].
    apply H. left. reflexivity.
Defined.

(** C9.  On every card of a locally sourced movie -- in the two-panel
    view a card of the DB panel, in the fallback view a card rendered
    while the source is not IMDB -- the label of the ratings count is the
    count followed by ["rating"] when the count is 1 and by ["ratings"]
    for any other count, 0 included. *)
Theorem rating_count_noun (movie : Movie) (n : Z) (card : Card) :
  ratings_count movie = Some n ->
  card = VariantA.renderMovieCard movie false \/
  (exists state, VariantB.searchSource state <> Some VariantB.Imdb /\
                 card = VariantB.renderMovieCard state movie) ->
  exists block,
    local_rating card = Some block /\
    (n = 1%Z ->
     rating_count block = [Txt "("; Num 1; Txt " "; Txt "rating"; Txt ")"]) /\
    (n <> 1%Z ->
     rating_count block = [Txt "("; Num n; Txt " "; Txt "ratings"; Txt ")"]) /\
    (n = 0%Z ->
     rating_count block = [Txt "("; Num 0; Txt " "; Txt "ratings"; Txt ")"]).
Proof.
  intros Hn Hcard.
  assert (Hblock : local_rating card = Some (local_rating_block movie)).
  { destruct Hcard as [-> | (st & Hsrc & ->)]; [reflexivity|].
    unfold VariantB.renderMovieCard. cbn [local_rating].
    destruct (VariantB.searchSource st) as [[|]|]; try reflexivity.
    contradiction. }
  exists (local_rating_block movie). split; [exact Hblock|].
  rewrite (rating_count_label movie n Hn).
  split; [intros ->; reflexivity|].
  split; [|intros ->; reflexivity].
  intros Hne. destruct (Z.eqb_spec n 1); [contradiction | reflexivity].
Qed.

(** One rating on a card of the DB panel; none on a card of the fallback
    view. *)
Lemma rating_count_noun_witness :
  (exists block,
      local_rating (VariantA.renderMovieCard local_movie false) = Some block /\
      rating_count block = [Txt "("; Num 1; Txt " "; Txt "rating"; Txt ")"])
  /\
  (exists block,
      local_rating (VariantB.renderMovieCard VariantB.initial (described "")) = Some block /\
      rating_count block = [Txt "("; Num 0; Txt " "; Txt "ratings"; Txt ")"]).
Proof.
  split.
  - destruct (rating_count_noun local_movie 1 (VariantA.renderMovieCard local_movie false)
                eq_refl (or_introl eq_refl)) as (block & Hblock & Hone & _).
    exists block. split; [exact Hblock | apply Hone; reflexivity].
  - assert (Hsrc : VariantB.searchSource VariantB.initial <> Some VariantB.Imdb)
      by discriminate.
    destruct (rating_count_noun (described "") 0
                (VariantB.renderMovieCard VariantB.initial (described ""))
                eq_refl
                (or_intror (ex_intro _ VariantB.initial (conj Hsrc eq_refl))))
      as (block & Hblock & _ & _ & Hzero).
    exists block. split; [exact Hblock | apply Hzero; reflexivity].
Defined.

(** ** The theme preference *)




End Statements.

(** * Further properties of the code *)

(** ** The fallback view *)

Section VariantB_further.
Import Js Eff Data Browser Vocabulary VariantB.

Variable getMovies : Params -> list Request -> Outcome DbResponse.
Variable searchIMDB : string -> list Request -> Outcome ImdbResponse.

(** The five ways a fetch can go. *)
Lemma B_fetch_cases (w : World) searchQuery pageNum :
  let db := getMovies (fetch_params searchQuery pageNum) (requests w) in
  let asked := searchIMDB searchQuery
                 (requests w ++ [GetMovies (fetch_params searchQuery pageNum)]) in
  (exists err, db_thrown db = Some err) \/
  (exists d, db = Resolved {| db_data := Some d |} /\
             truthy_string searchQuery && (length (results d) =? 0)%nat = false) \/
  (exists d r l, db = Resolved {| db_data := Some d |} /\
                 truthy_string searchQuery && (length (results d) =? 0)%nat = true /\
                 asked = Resolved r /\ imdb_hit r = Some l) \/
  (exists d r, db = Resolved {| db_data := Some d |} /\
               truthy_string searchQuery && (length (results d) =? 0)%nat = true /\
               asked = Resolved r /\ imdb_hit r = None) \/
  (exists d imdbErr, db = Resolved {| db_data := Some d |} /\
                     truthy_string searchQuery && (length (results d) =? 0)%nat = true /\
                     asked = Rejected imdbErr).
Proof.
  intros db asked.
  destruct db as [[[d|]]|e] eqn:Hdb.
  - destruct (truthy_string searchQuery && (length (results d) =? 0)%nat) eqn:Hbranch.
    + destruct asked as [r|imdbErr] eqn:Hasked.
      * destruct (imdb_hit r) as [l|] eqn:Hhit.
        -- right. right. left. exists d, r, l. repeat split; assumption.
        -- right. right. right. left. exists d, r. repeat split; assumption.
      * right. right. right. right. exists d, imdbErr. repeat split; assumption.
    + right. left. exists d. split; [reflexivity | assumption].
  - left. eexists. reflexivity.
  - left. eexists. reflexivity.
Qed.

(** The branch taken, in words. *)
Lemma B_branch_true searchQuery (d : DbData) :
  truthy_string searchQuery && (length (results d) =? 0)%nat = true <->
  searchQuery <> "" /\ results d = [].
Proof.
  unfold truthy_string. rewrite andb_true_iff, negb_true_iff.
  split.
  - intros [Hq Hl]. split.
    + intros ->. discriminate Hq.
    + destruct (results d); [reflexivity | discriminate Hl].
  - intros [Hq ->]. split; [|reflexivity].
    destruct (String.eqb_spec searchQuery ""); [contradiction | reflexivity].
Qed.

Ltac by_cases w searchQuery pageNum :=
  let db := fresh "db" in
  let asked := fresh "asked" in
  pose proof (B_fetch_cases w searchQuery pageNum) as Hcases;
  cbv zeta in Hcases;
  destruct Hcases as
    [ (err & Hthrown)
    | [ (d & Hdb & Hbranch)
      | [ (d & r & l & Hdb & Hbranch & Hasked & Hhit)
        | [ (d & r & Hdb & Hbranch & Hasked & Hhit)
          | (d & imdbErr & Hdb & Hbranch & Hasked) ] ] ] ];
  [ rewrite (B_fetch_db_throws getMovies searchIMDB w searchQuery pageNum err Hthrown)
  | rewrite (B_fetch_db_shown getMovies searchIMDB w searchQuery pageNum d Hdb Hbranch)
  | rewrite (B_fetch_imdb_hit getMovies searchIMDB w searchQuery pageNum d r l
                              Hdb Hbranch Hasked Hhit)
  | rewrite (B_fetch_imdb_empty getMovies searchIMDB w searchQuery pageNum d r
                                Hdb Hbranch Hasked Hhit)
  | rewrite (B_fetch_imdb_rejected getMovies searchIMDB w searchQuery pageNum d imdbErr
                                   Hdb Hbranch Hasked) ].

(** A fetch never scrolls. *)
Lemma B_fetch_scrolls (w : World) searchQuery pageNum :
  scrolls (exec (fetchMovies getMovies searchIMDB searchQuery pageNum) w) = scrolls w.
Proof. by_cases w searchQuery pageNum; reflexivity. Qed.

(** X1.  Whatever the two services do, a fetch of the fallback view
    returns without throwing, with the loading flag cleared; it writes
    neither the page number nor the search text and never scrolls. *)
Theorem fallback_fetch_settles (w : World) searchQuery pageNum :
  let w' := exec (fetchMovies getMovies searchIMDB searchQuery pageNum) w in
  result (fetchMovies getMovies searchIMDB searchQuery pageNum) w = Ok tt /\
  loading (ui w') = false /\
  loading_message (render (ui w')) = None /\
  page (ui w') = page (ui w) /\
  searchTerm (ui w') = searchTerm (ui w) /\
  scrolls w' = scrolls w.
Proof.
  cbv zeta. split; [apply B_fetch_returns|].
  by_cases w searchQuery pageNum; cbn; repeat split.
Qed.

(** X2.  A fetch of the fallback view always sends the DB request first,
    and sends the IMDB request, with the query as typed, exactly when the
    query is not empty and the DB answered with an empty list; nothing
    else is sent. *)
Theorem fallback_asks_imdb_when_needed (w : World) searchQuery pageNum :
  let db := getMovies (fetch_params searchQuery pageNum) (requests w) in
  let w' := exec (fetchMovies getMovies searchIMDB searchQuery pageNum) w in
  (requests w' = requests w ++ [GetMovies (fetch_params searchQuery pageNum);
                                SearchIMDB searchQuery] /\
   searchQuery <> "" /\
   exists d, db = Resolved {| db_data := Some d |} /\ results d = [])
  \/
  (requests w' = requests w ++ [GetMovies (fetch_params searchQuery pageNum)] /\
   ~ (searchQuery <> "" /\
      exists d, db = Resolved {| db_data := Some d |} /\ results d = [])).
Proof.
  cbv zeta.
  by_cases w searchQuery pageNum; cbn [requests].
  - right. split; [reflexivity|].
    intros (_ & d & Hdb & _). rewrite Hdb in Hthrown. discriminate Hthrown.
  - right. split; [reflexivity|].
    intros (Hq & d' & Hdb' & Hnone).
    rewrite Hdb in Hdb'. injection Hdb' as <-.
    assert (Htrue : truthy_string searchQuery && (length (results d) =? 0)%nat = true)
      by (apply B_branch_true; split; assumption).
    rewrite Hbranch in Htrue. discriminate Htrue.
  - left. apply B_branch_true in Hbranch. destruct Hbranch as [Hq Hnone].
    split; [reflexivity|]. split; [exact Hq|]. exists d. split; [exact Hdb | exact Hnone].
  - left. apply B_branch_true in Hbranch. destruct Hbranch as [Hq Hnone].
    split; [reflexivity|]. split; [exact Hq|]. exists d. split; [exact Hdb | exact Hnone].
  - left. apply B_branch_true in Hbranch. destruct Hbranch as [Hq Hnone].
    split; [reflexivity|]. split; [exact Hq|]. exists d. split; [exact Hdb | exact Hnone].
Qed.

(** X3.  When a query finds nothing in the DB and nothing on IMDB (an
    empty or shapeless answer, or a failed request), the page count keeps
    the value it had before the fetch while the source becomes the DB: if
    that count was above 1, the pagination is rendered under the empty
    list, with the old count. *)
Theorem fallback_empty_keeps_page_count (w : World) searchQuery pageNum d :
  searchQuery <> "" ->
  getMovies (fetch_params searchQuery pageNum) (requests w)
    = Resolved {| db_data := Some d |} ->
  results d = [] ->
  match searchIMDB searchQuery
          (requests w ++ [GetMovies (fetch_params searchQuery pageNum)]) with
  | Resolved r => imdb_hit r = None
  | Rejected _ => True
  end ->
  (1 < totalPages (ui w))%Z ->
  let view := render (ui (exec (fetchMovies getMovies searchIMDB searchQuery pageNum) w)) in
  movie_grid view = [] /\
  no_movies view <> None /\
  pagination view =
    Some {| prev_disabled := (page (ui w) =? 1)%Z;
            prev_goes_to := page (ui w) - 1;
            page_info := [Txt "Page "; Num (page (ui w)); Txt " of ";
                          Num (totalPages (ui w))];
            next_disabled := (page (ui w) =? totalPages (ui w))%Z;
            next_goes_to := page (ui w) + 1 |}.
Proof.
  intros Hq Hdb Hnone Hasked Hpages view. subst view.
  assert (Hbranch : truthy_string searchQuery && (length (results d) =? 0)%nat = true)
    by (apply B_branch_true; split; assumption).
  assert (Hlt : (1 <? totalPages (ui w))%Z = true) by (apply Z.ltb_lt; exact Hpages).
  destruct (searchIMDB searchQuery _) as [r|imdbErr] eqn:Himdb.
  - rewrite (B_fetch_imdb_empty getMovies searchIMDB w searchQuery pageNum d r
                                Hdb Hbranch Himdb Hasked).
    cbn. rewrite Hlt. cbn. repeat split. discriminate.
  - rewrite (B_fetch_imdb_rejected getMovies searchIMDB w searchQuery pageNum d imdbErr
                                   Hdb Hbranch Himdb).
    cbn. rewrite Hlt. cbn. repeat split. discriminate.
Qed.


End VariantB_further.

(** A query with no match anywhere, on a view that showed page 1 of 3. *)
Lemma fallback_empty_keeps_page_count_witness :
  VariantB.pagination
    (VariantB.render
       (Browser.ui
          (Eff.exec (VariantB.fetchMovies (Vocabulary.db_answers [] 0)
                                          (Vocabulary.imdb_answers []) "zzzqqq" 1)
                    (Vocabulary.showing_page 1 3))))
  = Some {| VariantB.prev_disabled := true;
            VariantB.prev_goes_to := 0;
            VariantB.page_info := [Js.Txt "Page "; Js.Num 1; Js.Txt " of "; Js.Num 3];
            VariantB.next_disabled := false;
            VariantB.next_goes_to := 2 |}.
Proof.
  assert (Hq : "zzzqqq" <> "") by discriminate.
  assert (Hpages : (1 < VariantB.totalPages (Browser.ui (Vocabulary.showing_page 1 3)))%Z)
    by (vm_compute; reflexivity).
  pose proof (fallback_empty_keeps_page_count
                (Vocabulary.db_answers [] 0) (Vocabulary.imdb_answers [])
                (Vocabulary.showing_page 1 3) "zzzqqq" 1%Z
                {| Data.results := []; Data.count := 0 |}
                Hq eq_refl eq_refl eq_refl Hpages) as H.
  cbv zeta in H. destruct H as (_ & _ & H). exact H.
Defined.


(** ** Pagination *)

Section Pagination.
Import Js Eff Data Browser Vocabulary.

Lemma more_than_one_page (C : Z) :
  (1 < Math_ceil (inject_Z C / inject_Z 10))%Z <-> (10 < C)%Z.
Proof. pose proof (Math_ceil_div10_spec C) as H. cbv zeta in H. lia. Qed.

(** X4.  After a DB answer with total count [C] whose list is shown, the
    pagination is rendered exactly when there are more than ten movies, in
    both views (in the fallback view the list is shown when the query is
    empty or the list is not). *)
Theorem pagination_when_more_than_ten (C : Z) (l : list Movie) :
  (forall getMovies searchMovies random order (w : VariantA.World) searchQuery pageNum,
      db_settles getMovies searchQuery pageNum w =
        Resolved {| db_data := Some {| results := l; count := C |} |} ->
      let w' := exec (VariantA.fetchMovies getMovies searchMovies random order
                                           searchQuery pageNum) w in
      VariantA.db_pagination (VariantA.render_db (ui w')) <> None <-> (10 < C)%Z)
  /\
  (forall getMovies searchIMDB (w : VariantB.World) searchQuery pageNum,
      getMovies (fetch_params searchQuery pageNum) (requests w) =
        Resolved {| db_data := Some {| results := l; count := C |} |} ->
      searchQuery = "" \/ l <> [] ->
      let w' := exec (VariantB.fetchMovies getMovies searchIMDB searchQuery pageNum) w in
      VariantB.pagination (VariantB.render (ui w')) <> None <-> (10 < C)%Z).
Proof.
  split.
  - intros getMovies searchMovies random order w searchQuery pageNum Hdb w'.
    subst w'. rewrite A_refresh_ui. rewrite Hdb.
    unfold VariantA.render_db.
    cbn [VariantA.db_pagination VariantA.totalPages count].
    rewrite <- more_than_one_page.
    destruct (Z.ltb_spec 1 (Math_ceil (inject_Z C / inject_Z 10))) as [Hlt|Hge].
    + split; [intros _; exact Hlt | discriminate].
    + split; [intros Hnone; now contradiction Hnone | lia].
  - intros getMovies searchIMDB w searchQuery pageNum Hdb Hshown w'. subst w'.
    rewrite (B_fetch_db_shown getMovies searchIMDB w searchQuery pageNum _ Hdb).
    + unfold VariantB.render.
      cbn [ui VariantB.pagination VariantB.totalPages VariantB.searchSource
           VariantB.source_eqb count andb].
      rewrite <- more_than_one_page.
      destruct (Z.ltb_spec 1 (Math_ceil (inject_Z C / inject_Z 10))) as [Hlt|Hge].
      * split; [intros _; exact Hlt | discriminate].
      * split; [intros Hnone; now contradiction Hnone | lia].
    + cbn [results]. destruct Hshown as [-> | Hl]; [reflexivity|].
      destruct l; [contradiction | apply andb_false_r].
Qed.

End Pagination.

(** Ten movies fit one page; eleven do not. *)
Lemma pagination_when_more_than_ten_witness :
  VariantA.db_pagination
    (VariantA.render_db
       (Browser.ui
          (Eff.exec (VariantA.fetchMovies (Vocabulary.db_answers [Vocabulary.local_movie] 10)
                       (Vocabulary.legacy_answers []) (Vocabulary.always 0)
                       VariantA.DbFirst "" 1) VariantA.boot))) = None
  /\
  VariantB.pagination
    (VariantB.render
       (Browser.ui
          (Eff.exec (VariantB.fetchMovies (Vocabulary.db_answers [Vocabulary.local_movie] 11)
                       (Vocabulary.imdb_answers []) "heat" 1) VariantB.boot))) <> None.
Proof.
  split.
  - destruct (pagination_when_more_than_ten 10 [Vocabulary.local_movie]) as [HA _].
    specialize (HA (Vocabulary.db_answers [Vocabulary.local_movie] 10)
                   (Vocabulary.legacy_answers []) (Vocabulary.always 0)
                   VariantA.DbFirst VariantA.boot "" 1%Z eq_refl).
    cbv zeta in HA.
    destruct (VariantA.db_pagination _) as [controls|]; [|reflexivity].
    assert (Hten : (10 < 10)%Z) by (apply HA; discriminate). lia.
  - destruct (pagination_when_more_than_ten 11 [Vocabulary.local_movie]) as [_ HB].
    assert (Hshown : "heat" = "" \/ [Vocabulary.local_movie] <> [])
      by (right; discriminate).
    specialize (HB (Vocabulary.db_answers [Vocabulary.local_movie] 11)
                   (Vocabulary.imdb_answers []) VariantB.boot "heat" 1%Z eq_refl Hshown).
    cbv zeta in HB. apply HB. lia.
Defined.

(** ** Cards *)

Section Cards_further.
Import Js Data Vocabulary.

Lemma string_length_append (s1 s2 : string) :
  String.length (s1 +:+ s2) = (String.length s1 + String.length s2)%nat.
Proof.
  induction s1 as [|c s1 IH]; [reflexivity|].
  change (String c s1 +:+ s2) with (String c (s1 +:+ s2)).
  change (S (String.length (s1 +:+ s2)) = S (String.length s1 + String.length s2)%nat).
  f_equal. exact IH.
Qed.

Lemma substring0_length_le (n : nat) (s : string) :
  (String.length (substring0 n s) <= n)%nat.
Proof.
  unfold substring0. revert s.
  induction n as [|n IH]; intros [|c s]; cbn; try lia.
  specialize (IH s). lia.
Qed.

Lemma clipped_length (s : string) :
  (String.length (if (150 <? String.length s)%nat
                  then substring0 150 s +:+ "..." else s) <= 153)%nat.
Proof.
  destruct (Nat.ltb_spec 150 (String.length s)) as [Hlong|Hshort]; [|lia].
  rewrite string_length_append. pose proof (substring0_length_le 150 s). cbn. lia.
Qed.

(** X7.  Whatever the movie, the text of the description paragraph of its
    card has at most 153 characters, in both views. *)
Theorem description_at_most_153 (movie : Movie) :
  (forall isIMDBMovie,
      (String.length (movie_description (VariantA.renderMovieCard movie isIMDBMovie))
       <= 153)%nat) /\
  (forall state,
      (String.length (movie_description (VariantB.renderMovieCard state movie))
       <= 153)%nat).
Proof.
  assert (Hplot : (String.length (plot_text movie) <= 153)%nat).
  { unfold plot_text. destruct (Plot movie) as [p|]; [|cbn; lia].
    destruct (truthy_string p); [apply clipped_length | cbn; lia]. }
  assert (Htext : (String.length (description_text movie) <= 153)%nat).
  { unfold description_text. destruct (description movie) as [d|]; [|exact Hplot].
    destruct (truthy_string d); [apply clipped_length | exact Hplot]. }
  split; intros; exact Htext.
Qed.

(** X6.  The fallback view reads none of the [#]-prefixed keys: a movie
    and the same movie without them give the same card.  The two-panel
    view does read them: a movie with no local title and a non-empty
    [#TITLE] is headed by that title there, while in the fallback view a
    movie with neither [title] nor [Title] has no heading at all. *)
Theorem fallback_ignores_hash_keys (movie : Movie) :
  (forall state,
      VariantB.renderMovieCard state movie =
      VariantB.renderMovieCard state (without_hash_keys movie)) /\
  (forall isIMDBMovie t,
      title movie = None \/ title movie = Some "" ->
      hash_TITLE movie = Some t -> t <> "" ->
      card_h3 (VariantA.renderMovieCard movie isIMDBMovie) = Txt t) /\
  (forall state,
      title movie = None -> Title movie = None ->
      card_h3 (VariantB.renderMovieCard state movie) = Nothing).
Proof.
  split; [|split].
  - intros state. reflexivity.
  - intros b t Htitle Hhash Ht.
    unfold VariantA.renderMovieCard. cbn [card_h3].
    assert (Hfirst : or_else truthy_string (title movie) (hash_TITLE movie) = Some t).
    { unfold or_else, truthy. destruct Htitle as [-> | ->]; exact Hhash. }
    rewrite Hfirst. unfold or_else, truthy, truthy_string.
    destruct (String.eqb_spec t ""); [contradiction | reflexivity].
  - intros state Htitle HTitle.
    unfold VariantB.renderMovieCard. cbn [card_h3].
    rewrite Htitle, HTitle. reflexivity.
Qed.

End Cards_further.

(** A movie of the legacy convention in both views. *)
Lemma fallback_ignores_hash_keys_witness :
  Data.card_h3 (VariantA.renderMovieCard Vocabulary.legacy_movie true) = Js.Txt "Heat" /\
  Data.card_h3 (VariantB.renderMovieCard VariantB.initial Vocabulary.legacy_movie)
    = Js.Nothing.
Proof.
  destruct (fallback_ignores_hash_keys Vocabulary.legacy_movie) as (_ & HA & HB).
  split.
  - apply HA; [left; reflexivity | reflexivity | discriminate].
  - apply HB; reflexivity.
Defined.

(** ** Turning pages *)

Section VariantB_controls.
Import Js Eff Data Browser Vocabulary VariantB.

Variable getMovies : Params -> list Request -> Outcome DbResponse.
Variable searchIMDB : string -> list Request -> Outcome ImdbResponse.

(** The world after [handlePageChange newPage]. *)
Lemma B_handlePageChange_exec (w : World) newPage :
  handlePageChange newPage w =
  (Ok tt,
   {| ui := {| movies := movies (ui w); loading := loading (ui w);
               error := error (ui w); searchTerm := searchTerm (ui w);
               page := newPage; totalPages := totalPages (ui w);
               searchSource := searchSource (ui w) |};
      console := console w; requests := requests w;
      scrolls := scrolls w ++ [(0%Z, 0%Z)];
      prevented := prevented w; draws := draws w |}).
Proof. reflexivity. Qed.

(** Turning to another page is [handlePageChange] followed by the fetch
    of the effect. *)
Lemma B_turn_page_exec (w : World) newPage :
  newPage <> page (ui w) ->
  exec (turn_page getMovies searchIMDB newPage) w =
  exec (fetchMovies getMovies searchIMDB (searchTerm (ui w)) newPage)
       (exec (handlePageChange newPage) w).
Proof.
  intros Hne. unfold turn_page, exec at 1, bind at 1, gets.
  unfold bind at 1. rewrite B_handlePageChange_exec.
  destruct (Z.eqb_spec (page (ui w)) newPage) as [Heq|_]; [congruence|].
  reflexivity.
Qed.

(** X8 (fallback view).  Turning to another page sets the page number,
    scrolls to the top once, and fetches that page with the text of the
    search field, which it leaves as it is; [handlePageChange] itself
    sends nothing. *)
Theorem page_turn_keeps_search (w : World) newPage :
  newPage <> page (ui w) ->
  let w' := exec (turn_page getMovies searchIMDB newPage) w in
  requests (exec (handlePageChange newPage) w) = requests w /\
  page (ui w') = newPage /\
  searchTerm (ui w') = searchTerm (ui w) /\
  scrolls w' = scrolls w ++ [(0%Z, 0%Z)] /\
  exists rest,
    requests w' =
    requests w ++
      GetMovies {| p_page := newPage;
                   p_search := if truthy_string (searchTerm (ui w))
                               then Some (searchTerm (ui w)) else None |} :: rest.
Proof.
  intros Hne w'. subst w'. rewrite (B_turn_page_exec w newPage Hne).
  split; [reflexivity|].
  set (w1 := exec (handlePageChange newPage) w).
  destruct (B_fetch_frame getMovies searchIMDB w1 (searchTerm (ui w)) newPage)
    as [Hpage Hterm].
  cbv zeta in Hpage, Hterm. rewrite Hpage, Hterm.
  split; [reflexivity|]. split; [reflexivity|].
  split.
  - pose proof (B_fetch_scrolls getMovies searchIMDB w1 (searchTerm (ui w)) newPage) as Hs.
    rewrite Hs. reflexivity.
  - destruct (B_fetch_first_request getMovies searchIMDB w1 (searchTerm (ui w)) newPage)
      as [rest Hrest].
    exists rest. rewrite Hrest. reflexivity.
Qed.

(** What a click on "Next" and one on "Previous" come to. *)
Lemma B_click_next_exec (w : World) :
  exec (click_next getMovies searchIMDB) w =
  if (1 <? totalPages (ui w))%Z && source_eqb (searchSource (ui w)) Db
  then if (page (ui w) =? totalPages (ui w))%Z then w
       else exec (turn_page getMovies searchIMDB (page (ui w) + 1)) w
  else w.
Proof.
  unfold click_next, exec, bind at 1, gets. cbv beta iota.
  unfold render. cbn [pagination].
  destruct ((1 <? totalPages (ui w))%Z && source_eqb (searchSource (ui w)) Db);
    cbv beta iota; [|reflexivity].
  cbn [next_disabled next_goes_to].
  destruct (page (ui w) =? totalPages (ui w))%Z; reflexivity.
Qed.

Lemma B_click_previous_exec (w : World) :
  exec (click_previous getMovies searchIMDB) w =
  if (1 <? totalPages (ui w))%Z && source_eqb (searchSource (ui w)) Db
  then if (page (ui w) =? 1)%Z then w
       else exec (turn_page getMovies searchIMDB (page (ui w) - 1)) w
  else w.
Proof.
  unfold click_previous, exec, bind at 1, gets. cbv beta iota.
  unfold render. cbn [pagination].
  destruct ((1 <? totalPages (ui w))%Z && source_eqb (searchSource (ui w)) Db);
    cbv beta iota; [|reflexivity].
  cbn [prev_disabled prev_goes_to].
  destruct (page (ui w) =? 1)%Z; reflexivity.
Qed.

(** X9 (fallback view).  With the page number within [1 .. totalPages], a
    click on "Next" or on "Previous" leaves it within that range and moves
    it by at most one; "Next" on the last page and "Previous" on the first
    do nothing at all. *)
Theorem page_clicks_stay_in_range (w : World) :
  (1 <= page (ui w) <= totalPages (ui w))%Z ->
  let next := exec (click_next getMovies searchIMDB) w in
  let previous := exec (click_previous getMovies searchIMDB) w in
  (1 <= page (ui next) <= totalPages (ui w))%Z /\
  (page (ui next) = page (ui w) \/ page (ui next) = (page (ui w) + 1)%Z) /\
  (page (ui w) = totalPages (ui w) -> next = w) /\
  (1 <= page (ui previous) <= totalPages (ui w))%Z /\
  (page (ui previous) = page (ui w) \/ page (ui previous) = (page (ui w) - 1)%Z) /\
  (page (ui w) = 1%Z -> previous = w).
Proof.
  intros Hrange next previous.
  assert (Hturn : forall newPage,
             newPage <> page (ui w) ->
             page (ui (exec (turn_page getMovies searchIMDB newPage) w)) = newPage).
  { intros newPage Hne. rewrite (B_turn_page_exec w newPage Hne).
    destruct (B_fetch_frame getMovies searchIMDB (exec (handlePageChange newPage) w)
                            (searchTerm (ui w)) newPage) as [Hpage _].
    cbv zeta in Hpage. rewrite Hpage. reflexivity. }
  assert (Hnext : (page (ui w) = totalPages (ui w) /\ next = w) \/
                  (page (ui w) <> totalPages (ui w) /\
                   (next = w \/ page (ui next) = (page (ui w) + 1)%Z))).
  { unfold next. rewrite B_click_next_exec.
    destruct (Z.eqb_spec (page (ui w)) (totalPages (ui w))) as [Heq|Hne].
    - left. split; [exact Heq|]. destruct (_ && _); reflexivity.
    - right. split; [exact Hne|].
      destruct (_ && _); [right; apply Hturn; lia | left; reflexivity]. }
  assert (Hprev : (page (ui w) = 1%Z /\ previous = w) \/
                  (page (ui w) <> 1%Z /\
                   (previous = w \/ page (ui previous) = (page (ui w) - 1)%Z))).
  { unfold previous. rewrite B_click_previous_exec.
    destruct (Z.eqb_spec (page (ui w)) 1) as [Heq|Hne].
    - left. split; [exact Heq|]. destruct (_ && _); reflexivity.
    - right. split; [exact Hne|].
      destruct (_ && _); [right; apply Hturn; lia | left; reflexivity]. }
  clearbody next previous.
  refine (conj _ (conj _ (conj _ (conj _ (conj _ _))))).
  - destruct Hnext as [[_ ->] | [Hne [-> | ->]]]; lia.
  - destruct Hnext as [[_ ->] | [Hne [-> | ->]]]; auto.
  - intros Hlast. destruct Hnext as [[_ ->] | [Hne _]]; [reflexivity | contradiction].
  - destruct Hprev as [[_ ->] | [Hne [-> | ->]]]; lia.
  - destruct Hprev as [[_ ->] | [Hne [-> | ->]]]; auto.
  - intros Hfirst. destruct Hprev as [[_ ->] | [Hne _]]; [reflexivity | contradiction].
Qed.

End VariantB_controls.

(** Page 2 of 3 of the results for "heat". *)
Lemma page_turn_keeps_search_witness :
  let w' := Eff.exec (VariantB.turn_page (Vocabulary.db_answers [Vocabulary.local_movie] 25)
                                         (Vocabulary.imdb_answers []) 2)
                     (Vocabulary.showing_page 1 3) in
  VariantB.page (Browser.ui w') = 2%Z /\
  VariantB.searchTerm (Browser.ui w') = "heat" /\
  Browser.scrolls w' = [(0%Z, 0%Z)].
Proof.
  cbv zeta.
  assert (Hne : 2%Z <> VariantB.page (Browser.ui (Vocabulary.showing_page 1 3)))
    by discriminate.
  pose proof (page_turn_keeps_search (Vocabulary.db_answers [Vocabulary.local_movie] 25)
                (Vocabulary.imdb_answers []) (Vocabulary.showing_page 1 3) 2%Z Hne) as H.
  cbv zeta in H. destruct H as (_ & Hpage & Hterm & Hscroll & _).
  split; [exact Hpage|]. split; [exact Hterm | exact Hscroll].
Defined.

(** "Next" on the last page of three. *)
Lemma page_clicks_stay_in_range_witness :
  Eff.exec (VariantB.click_next (Vocabulary.db_answers [Vocabulary.local_movie] 25)
                                (Vocabulary.imdb_answers []))
           (Vocabulary.showing_page 3 3)
  = Vocabulary.showing_page 3 3.
Proof.
  assert (Hrange : (1 <= VariantB.page (Browser.ui (Vocabulary.showing_page 3 3))
                    <= VariantB.totalPages (Browser.ui (Vocabulary.showing_page 3 3)))%Z)
    by (vm_compute; split; discriminate).
  pose proof (page_clicks_stay_in_range (Vocabulary.db_answers [Vocabulary.local_movie] 25)
                (Vocabulary.imdb_answers []) (Vocabulary.showing_page 3 3) Hrange) as H.
  cbv zeta in H. destruct H as (_ & _ & Hlast & _).
  apply Hlast. reflexivity.
Defined.

(** ** The two-panel view *)

Section VariantA_further.
Import Js Eff Data Browser Vocabulary VariantA.

Variable getMovies : Params -> list Request -> Outcome DbResponse.
Variable searchMovies : option string -> list Request -> Outcome ImdbResponse.
Variable random : nat -> Q.

(** The lines a part after an [await] writes to the console. *)
Lemma A_db_resume_console (w : World) o :
  console (exec (fetchFromDB_resume o) w) =
  console w ++ match db_thrown o with
               | Some err => [["DB fetch error:"; err]]
               | None => []
               end.
Proof.
  destruct o as [[[d|]]|e].
  - rewrite A_db_resume_resolved. cbn. now rewrite app_nil_r.
  - erewrite A_db_resume_throws by reflexivity. reflexivity.
  - erewrite A_db_resume_throws by reflexivity. reflexivity.
Qed.

Lemma A_imdb_resume_console (w : World) o :
  console (exec (fetchFromIMDB_resume o) w) =
  console w ++ match o with
               | Resolved _ => []
               | Rejected err => [["IMDB fetch error:"; err]]
               end.
Proof.
  destruct o as [r|e].
  - rewrite A_imdb_resume_resolved. cbn. now rewrite app_nil_r.
  - rewrite A_imdb_resume_rejected. reflexivity.
Qed.

Lemma A_db_resume_draws (w : World) o :
  draws (exec (fetchFromDB_resume o) w) = draws w.
Proof.
  destruct o as [[[d|]]|e].
  - now rewrite A_db_resume_resolved.
  - now erewrite A_db_resume_throws by reflexivity.
  - now erewrite A_db_resume_throws by reflexivity.
Qed.

Lemma A_imdb_resume_draws (w : World) o :
  draws (exec (fetchFromIMDB_resume o) w) = draws w.
Proof.
  destruct o as [r|e].
  - now rewrite A_imdb_resume_resolved.
  - now rewrite A_imdb_resume_rejected.
Qed.

Lemma A_db_resume_scrolls (w : World) o :
  scrolls (exec (fetchFromDB_resume o) w) = scrolls w.
Proof.
  destruct o as [[[d|]]|e].
  - now rewrite A_db_resume_resolved.
  - now erewrite A_db_resume_throws by reflexivity.
  - now erewrite A_db_resume_throws by reflexivity.
Qed.

Lemma A_imdb_resume_scrolls (w : World) o :
  scrolls (exec (fetchFromIMDB_resume o) w) = scrolls w.
Proof.
  destruct o as [r|e].
  - now rewrite A_imdb_resume_resolved.
  - now rewrite A_imdb_resume_rejected.
Qed.

Lemma A_imdb_start_scrolls (w : World) searchQuery :
  scrolls (exec (fetchFromIMDB_start searchMovies random searchQuery) w) = scrolls w.
Proof.
  unfold exec. destruct (A_imdb_start searchMovies random w searchQuery) as [n ->].
  reflexivity.
Qed.

Lemma A_imdb_start_console (w : World) searchQuery :
  console (exec (fetchFromIMDB_start searchMovies random searchQuery) w) = console w.
Proof.
  unfold exec. destruct (A_imdb_start searchMovies random w searchQuery) as [n ->].
  reflexivity.
Qed.

(** The start of the IMDB fetch draws twice when the query is empty and
    not at all otherwise. *)
Lemma A_imdb_start_draws (w : World) searchQuery :
  draws (exec (fetchFromIMDB_start searchMovies random searchQuery) w) =
  (draws w + if truthy_string searchQuery then 0 else 2)%nat.
Proof.
  cbv [fetchFromIMDB_start exec bind setImdbLoading modify with_ui imdb_query
       getRandomQuery Math_random ask send ret fst snd].
  destruct (truthy_string searchQuery); cbn [ui draws].
  - lia.
  - destruct (negb _); cbn [ui draws]; lia.
Qed.

(** A refresh, unrolled: both starts, then the two parts after the
    [await]s in the order of settling. *)
Lemma A_refresh_unrolled (order : Order) (w : World) searchQuery pageNum :
  let w1 := exec (fetchFromDB_start getMovies searchQuery pageNum) w in
  let w2 := exec (fetchFromIMDB_start searchMovies random searchQuery) w1 in
  let db := db_settles getMovies searchQuery pageNum w in
  let imdb := imdb_settles searchMovies random searchQuery pageNum w in
  fetchMovies getMovies searchMovies random order searchQuery pageNum w =
  (Ok tt,
   match order with
   | DbFirst => exec (fetchFromIMDB_resume imdb) (exec (fetchFromDB_resume db) w2)
   | ImdbFirst => exec (fetchFromDB_resume db) (exec (fetchFromIMDB_resume imdb) w2)
   end).
Proof.
  cbv zeta. unfold fetchMovies.
  pose proof (A_db_start getMovies w searchQuery pageNum) as H1.
  rewrite (bind_ok _ _ _ _ _ H1).
  match type of H1 with
  | _ = (_, ?W1) =>
      assert (E1 : exec (fetchFromDB_start getMovies searchQuery pageNum) w = W1)
        by (unfold exec; rewrite H1; reflexivity);
      rewrite E1;
      destruct (A_imdb_start searchMovies random W1 searchQuery) as [n H2];
      rewrite (imdb_query_of_draws random searchQuery W1 w eq_refl) in H2
  end.
  rewrite (bind_ok _ _ _ _ _ H2).
  match type of H2 with
  | ?c ?W1 = (_, ?W2) =>
      assert (E2 : exec c W1 = W2) by (unfold exec; rewrite H2; reflexivity);
      rewrite E2
  end.
  cbn [snd requests]. unfold db_settles, imdb_settles.
  destruct order.
  - rewrite (bind_ok _ _ _ _ _ (run_result _ _ _ (A_db_resume_returns _ _))).
    apply run_result, A_imdb_resume_returns.
  - rewrite (bind_ok _ _ _ _ _ (run_result _ _ _ (A_imdb_resume_returns _ _))).
    apply run_result, A_db_resume_returns.
Qed.

(** A refresh never scrolls, and draws only for an empty query. *)
Lemma A_refresh_scrolls (order : Order) (w : World) searchQuery pageNum :
  scrolls (exec (fetchMovies getMovies searchMovies random order searchQuery pageNum) w)
  = scrolls w.
Proof.
  pose proof (A_refresh_unrolled order w searchQuery pageNum) as H.
  cbv zeta in H. unfold exec at 1. rewrite H. cbn [snd].
  destruct order;
    rewrite ?A_db_resume_scrolls, ?A_imdb_resume_scrolls;
    rewrite ?A_db_resume_scrolls, ?A_imdb_resume_scrolls;
    rewrite A_imdb_start_scrolls; reflexivity.
Qed.

Lemma A_refresh_draws (order : Order) (w : World) searchQuery pageNum :
  draws (exec (fetchMovies getMovies searchMovies random order searchQuery pageNum) w)
  = (draws w + if truthy_string searchQuery then 0 else 2)%nat.
Proof.
  pose proof (A_refresh_unrolled order w searchQuery pageNum) as H.
  cbv zeta in H. unfold exec at 1. rewrite H. cbn [snd].
  destruct order;
    rewrite ?A_db_resume_draws, ?A_imdb_resume_draws;
    rewrite ?A_db_resume_draws, ?A_imdb_resume_draws;
    rewrite A_imdb_start_draws; reflexivity.
Qed.

(** X10.  Whatever the two services do and whichever settles first, a
    refresh of the two-panel view returns without throwing, with both
    loading flags cleared; it writes neither the page number nor the
    search text. *)
Theorem refresh_settles (order : Order) (w : World) searchQuery pageNum :
  let w' := exec (fetchMovies getMovies searchMovies random order searchQuery pageNum) w in
  result (fetchMovies getMovies searchMovies random order searchQuery pageNum) w = Ok tt /\
  dbLoading (ui w') = false /\
  imdbLoading (ui w') = false /\
  db_loading_message (render_db (ui w')) = None /\
  imdb_loading_message (render_imdb (ui w')) = None /\
  page (ui w') = page (ui w) /\
  searchTerm (ui w') = searchTerm (ui w).
Proof.
  cbv zeta. split.
  - unfold result. pose proof (A_refresh_unrolled order w searchQuery pageNum) as H.
    cbv zeta in H. rewrite H. reflexivity.
  - rewrite A_refresh_ui. cbn. repeat split.
Qed.

(** X11.  When both requests of a refresh fail, each panel shows its own
    error text and nothing else (no card, no "no movies" text), and the
    console receives the two failures in the order in which the requests
    settled. *)
Theorem both_panels_fail (order : Order) (w : World) searchQuery pageNum dbErr imdbErr :
  db_thrown (db_settles getMovies searchQuery pageNum w) = Some dbErr ->
  imdb_settles searchMovies random searchQuery pageNum w = Rejected imdbErr ->
  let w' := exec (fetchMovies getMovies searchMovies random order searchQuery pageNum) w in
  let view := render (ui w') in
  db_error_message (db_panel view) = Some "Failed to load movies from database" /\
  imdb_error_message (imdb_panel view) = Some "Failed to load movies from IMDB" /\
  db_grid (db_panel view) = [] /\
  imdb_grid (imdb_panel view) = [] /\
  db_no_movies (db_panel view) = None /\
  imdb_no_movies (imdb_panel view) = None /\
  console w' =
    console w ++
      match order with
      | DbFirst => [["DB fetch error:"; dbErr]; ["IMDB fetch error:"; imdbErr]]
      | ImdbFirst => [["IMDB fetch error:"; imdbErr]; ["DB fetch error:"; dbErr]]
      end.
Proof.
  intros Hdb Himdb w' view. subst view w'.
  refine (conj _ (conj _ (conj _ (conj _ (conj _ (conj _ _)))))).
  1-6: rewrite A_refresh_ui; rewrite Hdb, Himdb;
    destruct (db_settles getMovies searchQuery pageNum w) as [[[d|]]|e];
    try discriminate Hdb; reflexivity.
  pose proof (A_refresh_unrolled order w searchQuery pageNum) as H.
  cbv zeta in H. unfold exec at 1. rewrite H. cbn [snd].
  rewrite Himdb.
  destruct order;
    rewrite ?A_db_resume_console, ?A_imdb_resume_console;
    rewrite ?A_db_resume_console, ?A_imdb_resume_console;
    rewrite Hdb; rewrite A_imdb_start_console;
    change (console (exec (fetchFromDB_start getMovies searchQuery pageNum) w))
      with (console w);
    rewrite <- app_assoc; reflexivity.
Qed.

(** X12.  A DB failure in the two-panel view clears the DB list but
    leaves the page number, the search text and the page count as they
    were, so the pagination block is rendered as before the failure. *)
Theorem db_failure_keeps_paging (order : Order) (w : World) searchQuery pageNum err :
  db_thrown (db_settles getMovies searchQuery pageNum w) = Some err ->
  let w' := exec (fetchMovies getMovies searchMovies random order searchQuery pageNum) w in
  dbMovies (ui w') = [] /\
  page (ui w') = page (ui w) /\
  searchTerm (ui w') = searchTerm (ui w) /\
  totalPages (ui w') = totalPages (ui w) /\
  db_pagination (render_db (ui w')) = db_pagination (render_db (ui w)).
Proof.
  intros Hdb w'. subst w'. rewrite A_refresh_ui.
  destruct (db_settles getMovies searchQuery pageNum w) as [[[d|]]|e];
    try discriminate Hdb; cbn; repeat split.
Qed.

(** X13.  After any refresh each panel of the two-panel view is in
    exactly one of three states: it shows cards, or its error text, or its
    "no movies" text. *)
Theorem panel_shows_one_of_three (order : Order) (w : World) searchQuery pageNum :
  let view := render (ui (exec (fetchMovies getMovies searchMovies random order
                                            searchQuery pageNum) w)) in
  ((db_grid (db_panel view) <> [] /\
    db_error_message (db_panel view) = None /\ db_no_movies (db_panel view) = None) \/
   (db_grid (db_panel view) = [] /\
    db_error_message (db_panel view) <> None /\ db_no_movies (db_panel view) = None) \/
   (db_grid (db_panel view) = [] /\
    db_error_message (db_panel view) = None /\ db_no_movies (db_panel view) <> None))
  /\
  ((imdb_grid (imdb_panel view) <> [] /\
    imdb_error_message (imdb_panel view) = None /\
    imdb_no_movies (imdb_panel view) = None) \/
   (imdb_grid (imdb_panel view) = [] /\
    imdb_error_message (imdb_panel view) <> None /\
    imdb_no_movies (imdb_panel view) = None) \/
   (imdb_grid (imdb_panel view) = [] /\
    imdb_error_message (imdb_panel view) = None /\
    imdb_no_movies (imdb_panel view) <> None)).
Proof.
  cbv zeta. rewrite A_refresh_ui. split.
  - destruct (db_settles getMovies searchQuery pageNum w) as [[[d|]]|e].
    + destruct (results d) as [|m l] eqn:Hres.
      * right. right. cbn. repeat split. discriminate.
      * left. cbn. repeat split. discriminate.
    + right. left. cbn. repeat split. discriminate.
    + right. left. cbn. repeat split. discriminate.
  - destruct (imdb_settles searchMovies random searchQuery pageNum w) as [r|e].
    + destruct (imdb_list r) as [[|m l]|] eqn:Hlist.
      * right. right. cbn. repeat split. discriminate.
      * left. cbn. repeat split. discriminate.
      * right. right. cbn. repeat split. discriminate.
    + right. left. cbn. repeat split. discriminate.
Qed.

(** X14.  A refresh with a non-empty query never consults
    [Math.random()]: it runs the same with any generator and makes no
    draw; a refresh with the empty query makes exactly two draws. *)
Theorem search_needs_no_randomness (order : Order) (w : World) searchQuery pageNum :
  (searchQuery <> "" ->
   forall random',
     fetchMovies getMovies searchMovies random order searchQuery pageNum w =
     fetchMovies getMovies searchMovies random' order searchQuery pageNum w) /\
  (searchQuery <> "" ->
   draws (exec (fetchMovies getMovies searchMovies random order searchQuery pageNum) w)
   = draws w) /\
  (searchQuery = "" ->
   draws (exec (fetchMovies getMovies searchMovies random order searchQuery pageNum) w)
   = (draws w + 2)%nat).
Proof.
  pose proof (A_refresh_draws order w searchQuery pageNum) as Hdraws.
  split; [|split].
  - intros Hq random'.
    assert (Htruthy : truthy_string searchQuery = true)
      by (unfold truthy_string; destruct (String.eqb_spec searchQuery "");
          [contradiction | reflexivity]).
    unfold fetchMovies, fetchFromIMDB_start, imdb_query. rewrite Htruthy. reflexivity.
  - intros Hq. rewrite Hdraws.
    unfold truthy_string. destruct (String.eqb_spec searchQuery ""); [contradiction|].
    cbn. lia.
  - intros ->. rewrite Hdraws. reflexivity.
Qed.

(** Turning to another page is [handlePageChange] followed by the refresh
    of the effect. *)
Lemma A_turn_page_exec (order : Order) (w : World) newPage :
  newPage <> page (ui w) ->
  exec (turn_page getMovies searchMovies random order newPage) w =
  exec (fetchMovies getMovies searchMovies random order (searchTerm (ui w)) newPage)
       (exec (handlePageChange newPage) w).
Proof.
  intros Hne. unfold turn_page, exec at 1, bind at 1, gets.
  unfold bind at 1.
  change (handlePageChange newPage w) with (Ok tt, exec (handlePageChange newPage) w).
  destruct (Z.eqb_spec (page (ui w)) newPage) as [Heq|_]; [congruence|].
  reflexivity.
Qed.

(** X15.  In the two-panel view, turning to another page sets the page
    number, scrolls to the top once and refreshes both panels: the DB
    request carries the new page and the text of the search field, and the
    IMDB request is sent again, with that text or, when it is empty, with
    a freshly drawn term.  The search text is left as it is. *)
Theorem page_turn_refreshes_both_panels (order : Order) (w : World) newPage :
  newPage <> page (ui w) ->
  let term := searchTerm (ui w) in
  let w' := exec (turn_page getMovies searchMovies random order newPage) w in
  page (ui w') = newPage /\
  searchTerm (ui w') = term /\
  scrolls w' = scrolls w ++ [(0%Z, 0%Z)] /\
  requests w' =
    requests w ++ [GetMovies {| p_page := newPage;
                                p_search := if truthy_string term then Some term else None |};
                   SearchMovies (imdb_query_of random term w)] /\
  draws w' = (draws w + if truthy_string term then 0 else 2)%nat.
Proof.
  intros Hne term w'. subst w' term. rewrite (A_turn_page_exec order w newPage Hne).
  set (w1 := exec (handlePageChange newPage) w).
  rewrite A_refresh_ui, A_refresh_requests.
  refine (conj _ (conj _ (conj _ (conj _ _)))).
  - reflexivity.
  - reflexivity.
  - rewrite A_refresh_scrolls. reflexivity.
  - rewrite (imdb_query_of_draws random (searchTerm (ui w)) w1 w eq_refl). reflexivity.
  - rewrite A_refresh_draws. reflexivity.
Qed.

End VariantA_further.

(** Both services down, the DB request settling last. *)
Lemma both_panels_fail_witness :
  Browser.console
    (Eff.exec (VariantA.fetchMovies Vocabulary.db_down Vocabulary.legacy_down
                                    (Vocabulary.always 0) VariantA.ImdbFirst "heat" 1)
              VariantA.boot)
  = [["IMDB fetch error:"; "Network Error"]; ["DB fetch error:"; "Network Error"]].
Proof.
  pose proof (both_panels_fail Vocabulary.db_down Vocabulary.legacy_down
                (Vocabulary.always 0) VariantA.ImdbFirst VariantA.boot "heat" 1%Z
                "Network Error" "Network Error" eq_refl eq_refl) as H.
  cbv zeta in H. destruct H as (_ & _ & _ & _ & _ & _ & H). exact H.
Defined.

(** The DB goes down while page 2 of 3 is shown. *)
Lemma db_failure_keeps_paging_witness :
  let w' := Eff.exec (VariantA.fetchMovies Vocabulary.db_down (Vocabulary.legacy_answers [])
                                           (Vocabulary.always 0) VariantA.DbFirst "heat" 2)
                     (Vocabulary.showing_page_A 2 3) in
  VariantA.dbMovies (Browser.ui w') = [] /\
  VariantA.totalPages (Browser.ui w') = 3%Z /\
  VariantA.db_pagination (VariantA.render_db (Browser.ui w')) <> None.
Proof.
  cbv zeta.
  pose proof (db_failure_keeps_paging Vocabulary.db_down (Vocabulary.legacy_answers [])
                (Vocabulary.always 0) VariantA.DbFirst (Vocabulary.showing_page_A 2 3)
                "heat" 2%Z "Network Error" eq_refl) as H.
  cbv zeta in H. destruct H as (Hlist & _ & _ & Hpages & Hblock).
  split; [exact Hlist|]. split; [exact Hpages|].
  rewrite Hblock. discriminate.
Defined.

(** A search for "heat" and a refresh in browse mode. *)
Lemma search_needs_no_randomness_witness :
  Browser.draws
    (Eff.exec (VariantA.fetchMovies (Vocabulary.db_answers [] 0) (Vocabulary.legacy_answers [])
                                    (Vocabulary.always 0) VariantA.DbFirst "heat" 1)
              VariantA.boot) = 0%nat
  /\
  Browser.draws
    (Eff.exec (VariantA.fetchMovies (Vocabulary.db_answers [] 0) (Vocabulary.legacy_answers [])
                                    (Vocabulary.always 0) VariantA.DbFirst "" 1)
              VariantA.boot) = 2%nat.
Proof.
  split.
  - destruct (search_needs_no_randomness (Vocabulary.db_answers [] 0)
                (Vocabulary.legacy_answers []) (Vocabulary.always 0) VariantA.DbFirst
                VariantA.boot "heat" 1%Z) as (_ & H & _).
    apply H. discriminate.
  - destruct (search_needs_no_randomness (Vocabulary.db_answers [] 0)
                (Vocabulary.legacy_answers []) (Vocabulary.always 0) VariantA.DbFirst
                VariantA.boot "" 1%Z) as (_ & _ & H).
    apply H. reflexivity.
Defined.

(** Page 2 of the results for "heat" in the two-panel view. *)
Lemma page_turn_refreshes_both_panels_witness :
  Browser.requests
    (Eff.exec (VariantA.turn_page (Vocabulary.db_answers [Vocabulary.local_movie] 25)
                                  (Vocabulary.legacy_answers []) (Vocabulary.always 0)
                                  VariantA.DbFirst 2)
              (Vocabulary.showing_page_A 1 3))
  = [Data.GetMovies {| Data.p_page := 2; Data.p_search := Some "heat" |};
     Data.SearchMovies (Some "heat")].
Proof.
  assert (Hne : 2%Z <> VariantA.page (Browser.ui (Vocabulary.showing_page_A 1 3)))
    by discriminate.
  pose proof (page_turn_refreshes_both_panels
                (Vocabulary.db_answers [Vocabulary.local_movie] 25)
                (Vocabulary.legacy_answers []) (Vocabulary.always 0) VariantA.DbFirst
                (Vocabulary.showing_page_A 1 3) 2%Z Hne) as H.
  cbv zeta in H. destruct H as (_ & _ & _ & H & _). exact H.
Defined.

(** Draws that give "legend". *)
Lemma random_query_reaches_witness :
  exists first next,
    (0 <= first)%Q /\ (first < 1)%Q /\ (0 <= next)%Q /\ (next < 1)%Q /\
    Eff.result (VariantA.getRandomQuery
                  (Vocabulary.drawing (Browser.draws VariantA.boot) first next))
               VariantA.boot
    = Eff.Ok (Some "legend").
Proof.
  apply (random_query_reaches VariantA.boot "legend").
  left. cbn. tauto.
Defined.

(** ** The theme widget *)

Section ThemeWidget.
Import Js Theme Vocabulary.

Lemma mount_tracks (p : Page) :
  listeners p = 0%nat -> attribute_tracks (mount p).
Proof.
  intros Hl. unfold attribute_tracks, mount, theme_effect, effective_theme.
  cbn [theme page].
  destruct (String.eqb (initial_theme p) "system"); cbn; rewrite ?Hl; split; reflexivity.
Qed.

Lemma changeTheme_tracks (v : string) (s : Store) :
  attribute_tracks s -> attribute_tracks (changeTheme v s).
Proof.
  intros [Hattr Hlis]. unfold attribute_tracks, changeTheme. cbn [theme page].
  destruct (String.eqb_spec (theme s) v) as [Heq|Hne].
  - subst v. cbn. split; assumption.
  - unfold theme_effect, theme_cleanup, effective_theme in *.
    destruct (String.eqb (theme s) "system");
      destruct (String.eqb v "system"); cbn; rewrite ?Hlis; split; reflexivity.
Qed.

Lemma media_change_tracks (matches : bool) (s : Store) :
  attribute_tracks s -> attribute_tracks (media_change matches s).
Proof.
  intros [Hattr Hlis]. unfold attribute_tracks, media_change, handleChange, effective_theme in *.
  cbn [theme page listeners].
  destruct (String.eqb (theme s) "system"); rewrite Hlis; cbn.
  - split; reflexivity.
  - split; [exact Hattr | reflexivity].
Qed.

Lemma mount_reload_safe (p : Page) : reload_safe (mount p).
Proof.
  unfold reload_safe, mount, initial_theme, getItem. cbn [theme page].
  rewrite theme_effect_storage. reflexivity.
Qed.

Lemma listed_nonempty (v : string) : In v listed_preferences -> v <> "".
Proof. cbn. intros [<- | [<- | [<- | []]]]; discriminate. Qed.

Lemma changeTheme_reload_safe (v : string) (s : Store) :
  v <> "" -> reload_safe (changeTheme v s).
Proof.
  intros Hne. unfold reload_safe.
  rewrite (initial_theme_saved _ v (changeTheme_stored v s) Hne). reflexivity.
Qed.

Lemma media_change_reload_safe (matches : bool) (s : Store) :
  reload_safe s -> reload_safe (media_change matches s).
Proof.
  unfold reload_safe, media_change, handleChange, initial_theme, getItem.
  cbn [theme page]. intros H.
  destruct (_ && _); exact H.
Qed.

(** One event keeps the attribute in step with the preference. *)
Lemma step_tracks (e : Event) (t : Toggle) :
  attribute_tracks (store t) -> attribute_tracks (store (step e t)).
Proof.
  intros Htracks.
  destruct e as [|i|inside|matches|]; cbn [step].
  - exact Htracks.
  - unfold click_option.
    destruct (nth_error themes i) as [themeOption|]; [|exact Htracks].
    destruct (isOpen t); [|exact Htracks].
    cbn [handleThemeChange store]. apply changeTheme_tracks, Htracks.
  - unfold handleClickOutside. destruct (negb inside); exact Htracks.
  - cbn [store]. apply media_change_tracks, Htracks.
  - cbn [store]. apply mount_tracks. reflexivity.
Qed.

Lemma run_tracks (events : list Event) (t : Toggle) :
  attribute_tracks (store t) -> attribute_tracks (store (run events t)).
Proof.
  revert t. induction events as [|e events IH]; intros t Ht; [exact Ht|].
  change (run (e :: events) t) with (run events (step e t)).
  apply IH, step_tracks, Ht.
Qed.

(** One event keeps the storage in step with the preference, and either
    keeps the preference or sets a listed one. *)
Lemma step_safe (e : Event) (t : Toggle) :
  reload_safe (store t) ->
  reload_safe (store (step e t)) /\
  (theme (store (step e t)) = theme (store t) \/
   In (theme (store (step e t))) listed_preferences).
Proof.
  intros Hsafe.
  destruct e as [|i|inside|matches|]; cbn [step].
  - split; [exact Hsafe | left; reflexivity].
  - unfold click_option.
    destruct (nth_error themes i) as [themeOption|] eqn:Hi;
      [|split; [exact Hsafe | left; reflexivity]].
    destruct (isOpen t); [|split; [exact Hsafe | left; reflexivity]].
    assert (Hlisted : In (value themeOption) listed_preferences)
      by (apply in_map, (nth_error_In _ _ Hi)).
    cbn [handleThemeChange store]. split.
    + apply changeTheme_reload_safe, listed_nonempty, Hlisted.
    + right. exact Hlisted.
  - unfold handleClickOutside.
    destruct (negb inside); (split; [exact Hsafe | left; reflexivity]).
  - cbn [store]. split; [apply media_change_reload_safe, Hsafe | left; reflexivity].
  - cbn [store]. split; [apply mount_reload_safe|].
    left. rewrite reload_reads_storage. exact Hsafe.
Qed.

Lemma run_safe (events : list Event) (t : Toggle) :
  reload_safe (store t) ->
  reload_safe (store (run events t)) /\
  (theme (store (run events t)) = theme (store t) \/
   In (theme (store (run events t))) listed_preferences).
Proof.
  revert t. induction events as [|e events IH]; intros t Hsafe.
  - split; [exact Hsafe | left; reflexivity].
  - destruct (step_safe e t Hsafe) as [Hstep Htheme].
    destruct (IH (step e t) Hstep) as [Hrun Hthemes].
    change (run (e :: events) t) with (run events (step e t)).
    split; [exact Hrun|].
    destruct Hthemes as [Heq | Hin]; [|right; exact Hin].
    rewrite Heq. exact Htheme.
Qed.

(** X16.  On a page loaded without listener, after any sequence of
    clicks on the button and on options, of mouse presses inside or
    outside, of changes of the media query and of reloads, the
    [data-theme] attribute is the preference, or for ["system"] what the
    media query says at that time, and the media query has one listener
    while the preference is ["system"] and none otherwise. *)
Theorem theme_attribute_tracks_preference (p : Page) (events : list Event) :
  listeners p = 0%nat ->
  let s := store (run events (start p)) in
  data_theme (page s) = Some (effective_theme (theme s) (prefers_dark (page s))) /\
  listeners (page s) = if String.eqb (theme s) "system" then 1%nat else 0%nat.
Proof.
  intros Hl s. subst s.
  apply (run_tracks events (start p)). apply mount_tracks, Hl.
Qed.

(** X17.  After any such sequence of events on any page, a reload starts
    with the preference the store had before it. *)
Theorem reload_keeps_preference (p : Page) (events : list Event) :
  theme (store (run (events ++ [Reload]) (start p))) =
  theme (store (run events (start p))).
Proof.
  unfold run. rewrite fold_left_app. cbn [fold_left step store].
  rewrite reload_reads_storage.
  apply (run_safe events (start p)). apply mount_reload_safe.
Qed.

(** The option the button shows for a listed preference. *)
Lemma currentThemeObj_listed (s : Store) :
  In (theme s) listed_preferences ->
  exists themeOption, currentThemeObj s = Some themeOption /\ value themeOption = theme s.
Proof.
  unfold currentThemeObj. cbn.
  intros [H | [H | [H | []]]]; rewrite <- H; cbn; eexists; split; reflexivity.
Qed.

(** X18.  If the first load finds one of the three listed preferences,
    every later preference is one of the three, whatever the events, and
    the button always finds the option to show for it. *)
Theorem preference_stays_listed (p : Page) (events : list Event) :
  In (theme (mount p)) listed_preferences ->
  let s := store (run events (start p)) in
  In (theme s) listed_preferences /\
  exists themeOption, currentThemeObj s = Some themeOption /\ value themeOption = theme s.
Proof.
  intros Hlisted s. subst s.
  assert (Hin : In (theme (store (run events (start p)))) listed_preferences).
  { destruct (run_safe events (start p) (mount_reload_safe p)) as [_ [Heq | Hin]].
    - rewrite Heq. exact Hlisted.
    - exact Hin. }
  split; [exact Hin | apply currentThemeObj_listed, Hin].
Qed.

(** X19.  A stored value that is not empty and not one of the three
    listed preferences is taken as it is on first load: it becomes the
    preference and the [data-theme] attribute, and the button of the
    dropdown finds no option to show. *)
Theorem unlisted_stored_theme_is_kept (p : Page) (v : string) :
  getItem "theme" p = Some v ->
  v <> "" ->
  ~ In v listed_preferences ->
  theme (mount p) = v /\
  data_theme (page (mount p)) = Some v /\
  listeners (page (mount p)) = listeners p /\
  currentThemeObj (mount p) = None.
Proof.
  intros Hv Hne Hunlisted.
  assert (Htheme : initial_theme p = v) by (apply initial_theme_saved; assumption).
  assert (Hdark : String.eqb "dark" v = false)
    by (apply String.eqb_neq; intros <-; apply Hunlisted; cbn; tauto).
  assert (Hlight : String.eqb "light" v = false)
    by (apply String.eqb_neq; intros <-; apply Hunlisted; cbn; tauto).
  assert (Hsystem : String.eqb "system" v = false)
    by (apply String.eqb_neq; intros <-; apply Hunlisted; cbn; tauto).
  assert (Hsystem' : String.eqb v "system" = false)
    by (rewrite String.eqb_sym; exact Hsystem).
  unfold mount, currentThemeObj, theme_effect. cbn [theme page].
  rewrite Htheme, Hsystem'. cbn [find themes value].
  rewrite Hdark, Hlight, Hsystem. repeat split.
Qed.

End ThemeWidget.

(** The preference is switched to "system", the system turns dark, the
    page is reloaded. *)
Lemma theme_attribute_tracks_preference_witness :
  let s := Theme.store
             (Theme.run [Theme.ClickButton; Theme.ClickOption 2;
                         Theme.MediaChange true; Theme.Reload]
                        (Theme.start (Vocabulary.fresh_page ∅ false))) in
  Theme.theme s = "system" /\
  Theme.data_theme (Theme.page s) = Some "dark" /\
  Theme.listeners (Theme.page s) = 1%nat.
Proof.
  cbv zeta.
  pose proof (theme_attribute_tracks_preference
                (Vocabulary.fresh_page ∅ false)
                [Theme.ClickButton; Theme.ClickOption 2;
                 Theme.MediaChange true; Theme.Reload] eq_refl) as H.
  cbv zeta in H. destruct H as [Hattr Hlis].
  assert (Htheme : Theme.theme
                     (Theme.store
                        (Theme.run [Theme.ClickButton; Theme.ClickOption 2;
                                    Theme.MediaChange true; Theme.Reload]
                                   (Theme.start (Vocabulary.fresh_page ∅ false))))
                   = "system") by (vm_compute; reflexivity).
  split; [exact Htheme|].
  rewrite Htheme in Hattr, Hlis.
  split; [rewrite Hattr; vm_compute; reflexivity | exact Hlis].
Defined.

(** Nothing stored: the default is listed, and stays so. *)
Lemma preference_stays_listed_witness :
  In (Theme.theme
        (Theme.store
           (Theme.run [Theme.ClickButton; Theme.ClickOption 1; Theme.Reload]
                      (Theme.start (Vocabulary.fresh_page ∅ true)))))
     Vocabulary.listed_preferences.
Proof.
  assert (Hlisted : In (Theme.theme (Theme.mount (Vocabulary.fresh_page ∅ true)))
                       Vocabulary.listed_preferences)
    by (left; reflexivity).
  pose proof (preference_stays_listed (Vocabulary.fresh_page ∅ true)
                [Theme.ClickButton; Theme.ClickOption 1; Theme.Reload]
                Hlisted) as H.
  cbv zeta in H. apply H.
Defined.

(** "blue" found in the storage. *)
Lemma unlisted_stored_theme_is_kept_witness :
  Theme.theme (Theme.mount (Vocabulary.page_storing (Some "blue"))) = "blue" /\
  Theme.currentThemeObj (Theme.mount (Vocabulary.page_storing (Some "blue"))) = None.
Proof.
  assert (Hstored : Theme.getItem "theme" (Vocabulary.page_storing (Some "blue"))
                    = Some "blue") by (vm_compute; reflexivity).
  assert (Hne : "blue" <> "") by discriminate.
  assert (Hunlisted : ~ In "blue" Vocabulary.listed_preferences)
    by (cbn; intros [H | [H | [H | []]]]; discriminate H).
  destruct (unlisted_stored_theme_is_kept (Vocabulary.page_storing (Some "blue")) "blue"
              Hstored Hne Hunlisted) as (Htheme & _ & _ & Hnone).
  split; [exact Htheme | exact Hnone].
Defined.

(** Another key of the storage survives a change of theme. *)
Lemma changeTheme_other_keys_witness :
  Theme.getItem "token"
    (Theme.page (Theme.changeTheme "light"
                   (Theme.mount (Vocabulary.fresh_page {[ "token" := "abc" ]} false))))
  = Some "abc".
Proof.
  assert (Hkey : "token" <> "theme") by discriminate.
  rewrite (changeTheme_other_keys "light" "token"
             (Theme.mount (Vocabulary.fresh_page {[ "token" := "abc" ]} false)) Hkey).
  vm_compute. reflexivity.
Defined.
